(** * axlearn/cloud/gcp/job.py: executing commands on GCP

    A shallow embedding of the SSH dispatchers ([TPUQRMJob], [CPUJob]),
    of the command escaper and of the JobSet manifest builder
    ([TPUGKEJob]), with the properties of each.

    Python [str] is modelled by [string], one [ascii] per character, so
    that [String.length] is Python's [len]; Python [int] by [Z]. *)

From Stdlib Require Import ZArith String Ascii List Bool Lia DecimalString.
From stdpp Require Import gmap strings list.
Import ListNotations.

Open Scope string_scope.

(** Concatenation with a literal on the left reduces, as it does in the
    Standard Library. *)
#[global] Arguments String.append !_ _ / : simpl nomatch.

(** ** Python values and strings *)

Module Py.

(** The characters the source names. *)
Definition dquote : ascii := "034"%char.
Definition dollar : ascii := "036"%char.
Definition squote : ascii := "039"%char.
Definition slash : ascii := "047"%char.
Definition backslash : ascii := "092"%char.

(** Values found in keyword arguments, flags and env mappings. *)
Inductive pyval :=
| PyNone
| PyBool (b : bool)
| PyInt (z : Z)
| PyStr (s : string).

(** [bool(v)]. *)
Definition truthy (v : pyval) : bool :=
  match v with
  | PyNone => false
  | PyBool b => b
  | PyInt z => negb (z =? 0)%Z
  | PyStr s => negb (String.eqb s EmptyString)
  end.

(** [str(z)] for an int. *)
Definition str_of_Z (z : Z) : string := NilZero.string_of_int (Z.to_int z).

(** [str(v)], which is also how an f-string formats [v]. *)
Definition str (v : pyval) : string :=
  match v with
  | PyNone => "None"
  | PyBool true => "True"
  | PyBool false => "False"
  | PyInt z => str_of_Z z
  | PyStr s => s
  end.

(** Truthiness of an [Optional[str]]: [None] and the empty string are falsy. *)
Definition opt_truthy (o : option string) : bool :=
  match o with
  | Some s => negb (String.eqb s EmptyString)
  | None => false
  end.

(** [s.replace(old, new)] for a pattern [old] of one character. *)
Fixpoint replace_char (old : ascii) (new : string) (s : string) : string :=
  match s with
  | EmptyString => EmptyString
  | String c rest =>
      if Ascii.eqb c old then new ++ replace_char old new rest
      else String c (replace_char old new rest)
  end.

(** [s.lstrip(c)] for one character [c]. *)
Fixpoint lstrip_char (c : ascii) (s : string) : string :=
  match s with
  | String d rest => if Ascii.eqb d c then lstrip_char c rest else s
  | EmptyString => EmptyString
  end.

(** [c in s]. *)
Fixpoint mem_char (c : ascii) (s : string) : bool :=
  match s with
  | EmptyString => false
  | String d rest => Ascii.eqb d c || mem_char c rest
  end.

(** [all(p(c) for c in s)]. *)
Fixpoint forall_chars (p : ascii -> bool) (s : string) : bool :=
  match s with
  | EmptyString => true
  | String c rest => p c && forall_chars p rest
  end.

Definition in_range (lo hi : nat) (c : ascii) : bool :=
  (lo <=? nat_of_ascii c)%nat && (nat_of_ascii c <=? hi)%nat.

Definition is_ascii_alpha (c : ascii) : bool :=
  in_range 65 90 c || in_range 97 122 c.

Definition is_ascii_digit (c : ascii) : bool := in_range 48 57 c.

(** [c.lower()] on the ASCII letters. *)
Definition lower_char (c : ascii) : ascii :=
  if in_range 65 90 c then ascii_of_nat (nat_of_ascii c + 32) else c.

Fixpoint lower (s : string) : string :=
  match s with
  | EmptyString => EmptyString
  | String c rest => String (lower_char c) (lower rest)
  end.

End Py.

(** ** shlex.quote (Python standard library) *)

Module Shlex.
Import Py.

(** The class [[\w@%+=:,./-]] under [re.ASCII]: characters that need no
    quoting. *)
Definition safe_char (c : ascii) : bool :=
  is_ascii_alpha c || is_ascii_digit c || mem_char c "_@%+=:,./-".

(** [_find_unsafe(s) is None]. *)
Definition all_safe (s : string) : bool := forall_chars safe_char s.

(** The replacement of a single quote: close the quoting, a single quote
    inside double quotes, reopen the quoting. *)
Definition squote_escape : string :=
  String squote (String dquote (String squote (String dquote (String squote EmptyString)))).

(** [shlex.quote(s)]. *)
Definition quote (s : string) : string :=
  match s with
  | EmptyString => String squote (String squote EmptyString)
  | _ =>
      if all_safe s then s
      else String squote (replace_char squote squote_escape s ++ String squote EmptyString)
  end.

End Shlex.

(** ** The command escaper *)

Import Py.

(** [_prepare_cmd_for_gcloud_ssh] (job.py, lines 642-647): quote for the
    remote shell, then escape double quotes and dollars for the [--command]
    argument. *)
Definition _prepare_cmd_for_gcloud_ssh (cmd : string) : string :=
  let cmd := Shlex.quote cmd in
  let cmd := replace_char dquote (String backslash (String dquote EmptyString)) cmd in
  let cmd := replace_char dollar (String backslash (String dollar EmptyString)) cmd in
  cmd.

(** How a POSIX shell reads the inside of a double-quoted word: a backslash
    takes the next character with it, and the first double quote that no
    backslash took ends the word. [closes_dquote s] tells whether [s],
    placed between double quotes, ends the word before its own end. *)
Fixpoint closes_dquote (s : string) : bool :=
  match s with
  | EmptyString => false
  | String c rest =>
      if Ascii.eqb c backslash then
        match rest with
        | EmptyString => false
        | String _ rest' => closes_dquote rest'
        end
      else if Ascii.eqb c dquote then true
      else closes_dquote rest
  end.

(** Every occurrence of [c] in [s] has a backslash just before it;
    [prev] tells whether the character before [s] was a backslash. *)
Fixpoint escaped_from (prev : bool) (c : ascii) (s : string) : bool :=
  match s with
  | EmptyString => true
  | String d rest =>
      (negb (Ascii.eqb d c) || prev) && escaped_from (Ascii.eqb d backslash) c rest
  end.

Definition always_escaped (c : ascii) (s : string) : bool := escaped_from false c s.

(** ** Exceptions, results and the effect monad *)

(** The exceptions of the code. [CheckedExit] is what the helpers that run
    a command raise for a non-zero exit status they were asked to check;
    the helpers are not among the sources, so its Python class is left
    open and it stands apart from the classes the sources name. *)
Inductive exn :=
| ValueError (msg : string)
| KeyError (key : string)
| NotImplementedError (msg : string)
| CheckedExit (returncode : Z) (cmd : string).

Inductive result (A : Type) :=
| Ok (a : A)
| Raise (e : exn).
Arguments Ok {A} a.
Arguments Raise {A} e.

Definition is_ok {A} (r : result A) : bool :=
  match r with Ok _ => true | Raise _ => false end.

(** What a call leaves behind, in order: live queries of the TPU API (with
    whether the node was found), files unlinked, and the command line of
    every [subprocess_run]. *)
Inductive event :=
| EvLiveQuery (queued : bool) (name : string) (found : bool)
| EvUnlink (path : string)
| EvRun (cmd : string).

(** A TPU node as [_infer_iap] reads it; a key that is absent from the
    dict reads as the empty list, as with [.get(key, [])]. *)
Record AccessConfig := { natIP : option string }.
Record Endpoint := { accessConfig : list AccessConfig }.
Record Node := { networkEndpoints : list Endpoint }.

(** What the code asks of its surroundings. The credentials and the API
    resource built from them are folded into the two node queries. *)
Record World := {
  running_from_vm : bool;
  environ : gmap string string;
  path_exists : string -> bool;
  get_tpu_node : string -> option Node;
  get_queued_tpu_node : string -> option Node;
  exit_status : string -> Z;
}.

(** The mutable part: the field [self._use_iap] of the job instance and
    the log of effects. *)
Record State := {
  _use_iap : option bool;
  trace : list event;
}.

Definition M (A : Type) : Type := State -> result A * State.

Definition ret {A} (a : A) : M A := fun st => (Ok a, st).

Definition raise {A} (e : exn) : M A := fun st => (Raise e, st).

Definition bind {A B} (m : M A) (k : A -> M B) : M B :=
  fun st =>
    match m st with
    | (Ok a, st') => k a st'
    | (Raise e, st') => (Raise e, st')
    end.

Declare Scope py_scope.
Delimit Scope py_scope with py.
Notation "x <- m ;; k" := (bind m (fun x => k))
  (at level 100, m at next level, right associativity) : py_scope.
Notation "m ;;; k" := (bind m (fun _ => k))
  (at level 100, right associativity) : py_scope.
Open Scope py_scope.

Definition log (e : event) : M unit :=
  fun st => (Ok tt, {| _use_iap := _use_iap st; trace := trace st ++ [e] |}).

Definition get_use_iap : M (option bool) := fun st => (Ok (_use_iap st), st).

Definition set_use_iap (v : option bool) : M unit :=
  fun st => (Ok tt, {| _use_iap := v; trace := trace st |}).

(** ** subprocess plumbing *)

Record CompletedProcess := { args : string; returncode : Z }.

(** [_prepare_subprocess_kwargs] (lines 601-606): [setdefault] on the dict
    it is given, which it also returns. *)
Definition setdefault (k : string) (v : pyval) (kwargs : gmap string pyval) : gmap string pyval :=
  match kwargs !! k with
  | Some _ => kwargs
  | None => <[k := v]> kwargs
  end.

Definition isdisjoint (kwargs : gmap string pyval) (keys : list string) : bool :=
  forallb (fun k => match kwargs !! k with Some _ => false | None => true end) keys.

Definition _prepare_subprocess_kwargs (kwargs : gmap string pyval) : gmap string pyval :=
  let kwargs := setdefault "text" (PyBool true) kwargs in
  let kwargs := setdefault "check" (PyBool true) kwargs in
  let kwargs := setdefault "capture_output" (PyBool (isdisjoint kwargs ["stdout"; "stderr"])) kwargs in
  kwargs.

(** [kwargs.get("check", False)], as a truth value. *)
Definition check_of (kwargs : gmap string pyval) : bool :=
  match kwargs !! "check" with
  | Some v => truthy v
  | None => false
  end.

Section Plumbing.
Variable w : World.

(** Modelled from the spec: [subprocess_run] of axlearn.cloud.common.utils
    is not among the sources. The spec has it as the primitive
    run(shell_command, options) that gives the exit code of the command.
    Its options are those of Python's [subprocess.run], to which it hands
    them; the model keeps the one the sources set and read, [check]: when
    it is truthy a non-zero exit code is raised ([CheckedExit]) instead
    of being returned. *)
Definition subprocess_run (cmd : string) (kwargs : gmap string pyval) : M CompletedProcess :=
  log (EvRun cmd) ;;;
  let rc := exit_status w cmd in
  if check_of kwargs && negb (rc =? 0)%Z then raise (CheckedExit rc cmd)
  else ret {| args := cmd; returncode := rc |}.

End Plumbing.

(** ** Job configurations *)

(** [Job.Config] with the fields [GCPJob.Config] adds. *)
Record GCPJobConfig := {
  name : string;
  command : string;
  max_tries : Z;
  project : string;
  zone : string;
  service_account : option string;
}.

Record AcceleratorConfig := {
  instance_type : string;
  num_replicas : Z;
}.

(** [f"{name}-{i}" for i in range(n)]. *)
Definition indexed_names (name : string) (n : Z) : list string :=
  map (fun i => name ++ "-" ++ str_of_Z (Z.of_nat i)) (seq 0 (Z.to_nat n)).

(** ** TPUQRMJob: commands on TPU-VMs *)

Module TPUQRMJob.

Record Config := {
  base : GCPJobConfig;
  accelerator : AcceleratorConfig;
}.

(** The arguments of one call of [_execute_remote_cmd]. *)
Record Call := {
  cmd : string;
  worker : pyval;
  detached_session : option string;
  batch_size : pyval;
  extra_ssh_flags : string;
  kwargs : gmap string pyval;
}.

(** The defaults of the signature. *)
Definition call (cmd : string) : Call :=
  {| cmd := cmd; worker := PyStr "all"; detached_session := None;
     batch_size := PyInt 100; extra_ssh_flags := EmptyString; kwargs := ∅ |}.

(** The slices a job addresses (lines 240-243). *)
Definition slices (cfg : Config) : list string :=
  if (1 <? num_replicas (accelerator cfg))%Z
  then indexed_names (name (base cfg)) (num_replicas (accelerator cfg))
  else [name (base cfg)].

(** The command line for one slice (lines 246-253). *)
Definition cmd_for_slice (cfg : Config) (s : string) (worker batch_size : pyval)
    (extra_ssh_flags cmd : string) : string :=
  "gcloud alpha compute -q tpus tpu-vm ssh " ++ s ++ " " ++
  "--project=" ++ project (base cfg) ++ " " ++
  "--zone=" ++ zone (base cfg) ++ " " ++
  "--worker=" ++ str worker ++ " " ++
  "--batch-size=" ++ str batch_size ++ " " ++
  extra_ssh_flags ++ " --command=" ++ String dquote (cmd ++ String dquote EmptyString).

(** Some [natIP] of some access config of some endpoint is truthy
    (lines 180-182). *)
Definition has_public_ip (node : Node) : bool :=
  existsb (fun endpoint => existsb (fun access_config => opt_truthy (natIP access_config))
                             (accessConfig endpoint))
          (networkEndpoints node).

Section Instance.
Variable w : World.
Variable cfg : Config.
Variable _local_home : string.

Definition _ensure_ssh_keys : M unit :=
  let hosts_file := _local_home ++ "/.ssh/google_compute_known_hosts" in
  (if path_exists w hosts_file then log (EvUnlink hosts_file) else ret tt) ;;;
  let ssh_key := _local_home ++ "/.ssh/google_compute_engine" in
  _ <- subprocess_run w ("ssh-add " ++ ssh_key)
         (<["capture_output" := PyBool true]> (<["check" := PyBool false]> ∅)) ;;
  ret tt.

(** The live query for the node of the job: the queued resource for a
    multi-slice job, the TPU node otherwise. *)
Definition query_node : M (option Node) :=
  let queued := (1 <? num_replicas (accelerator cfg))%Z in
  let node := if queued then get_queued_tpu_node w (name (base cfg))
              else get_tpu_node w (name (base cfg)) in
  log (EvLiveQuery queued (name (base cfg)) (match node with Some _ => true | None => false end)) ;;;
  ret node.

Definition _infer_iap : M bool :=
  use_iap <- get_use_iap ;;
  match use_iap with
  | None =>
      node <- query_node ;;
      match node with
      | None => raise (ValueError ("Expected TPU " ++ name (base cfg) ++ " to exist"))
      | Some node =>
          if has_public_ip node then set_use_iap (Some false) ;;; ret false
          else set_use_iap (Some true) ;;; ret true
      end
  | Some use_iap => ret use_iap
  end.

(** The loop over the slices (lines 244-256). The dict [kwargs] is the same object in
    every round: what [_prepare_subprocess_kwargs] sets in one round is
    there in the next. *)
Fixpoint for_slices (worker batch_size : pyval) (extra_ssh_flags cmd : string)
    (slices : list string) (kwargs : gmap string pyval)
    (procs : list CompletedProcess) : M (list CompletedProcess) :=
  match slices with
  | [] => ret procs
  | s :: rest =>
      let kwargs := _prepare_subprocess_kwargs kwargs in
      proc <- subprocess_run w (cmd_for_slice cfg s worker batch_size extra_ssh_flags cmd) kwargs ;;
      for_slices worker batch_size extra_ssh_flags cmd rest kwargs (procs ++ [proc])
  end.

(** The ssh flags after the routing decision: the branch on [from_vm] of
    [_execute_remote_cmd] (lines 226-231). *)
Definition route (extra_ssh_flags : string) : M string :=
  if running_from_vm w then
    _ensure_ssh_keys ;;;
    ret ("--internal-ip " ++ extra_ssh_flags)
  else
    use_iap <- _infer_iap ;;
    if use_iap then ret ("--tunnel-through-iap " ++ extra_ssh_flags)
    else ret extra_ssh_flags.

(** The command behind [screen], when a session is asked for: the branch
    on [detached_session] of [_execute_remote_cmd] (lines 233-238), with
    its check of the length of the name. *)
Definition detach (detached_session : option string) (cmd : string) : M string :=
  match detached_session with
  | Some session =>
      if negb (String.eqb session EmptyString) then
        if (80 <? String.length session)%nat
        then raise (ValueError ("Screen name " ++ session ++ " is too long."))
        else ret ("sudo screen -dmS " ++ session ++ " " ++ cmd)
      else ret cmd
  | None => ret cmd
  end.

Definition _execute_remote_cmd (c : Call) : M (list CompletedProcess) :=
  let cmd := _prepare_cmd_for_gcloud_ssh ("pushd /root && " ++ cmd c) in
  extra_ssh_flags <- route (extra_ssh_flags c) ;;
  let cmd := "sudo bash -c " ++ cmd in
  cmd <- detach (detached_session c) cmd ;;
  for_slices (worker c) (batch_size c) extra_ssh_flags cmd (slices cfg) (kwargs c) [].

Definition _execute : M unit :=
  _ <- _execute_remote_cmd (call (command (base cfg))) ;;
  ret tt.

End Instance.

(** A fresh instance, as [__init__] leaves it. *)
Definition init : State := {| _use_iap := None; trace := [] |}.

(** Calls made one after the other on one instance, each in the world of
    its time; the caller goes on after a call that raised. *)
Fixpoint run_calls (cfg : Config) (home : string) (calls : list (World * Call))
    (st : State) : State :=
  match calls with
  | [] => st
  | (w, c) :: rest => run_calls cfg home rest (snd (_execute_remote_cmd w cfg home c st))
  end.

End TPUQRMJob.

(** ** CPUJob: commands on CPU VMs *)

Module CPUJob.

(** The command line for the VM (lines 585-590). *)
Definition ssh_cmd (cfg : GCPJobConfig) (cmd : string) : string :=
  "gcloud compute -q ssh " ++ name cfg ++ " " ++
  "--project=" ++ project cfg ++ " " ++
  "--zone=" ++ zone cfg ++ " " ++
  "--command=" ++ String dquote (cmd ++ String dquote EmptyString).

Section Instance.
Variable w : World.
Variable cfg : GCPJobConfig.

Definition _execute_remote_cmd (cmd : string) (detached_session : option string)
    (kwargs : gmap string pyval) : M CompletedProcess :=
  let cmd := _prepare_cmd_for_gcloud_ssh ("pushd /root && " ++ cmd) in
  let cmd := "sudo -i bash -c " ++ cmd in
  let cmd :=
    match detached_session with
    | Some session =>
        if negb (String.eqb session EmptyString)
        then "sudo screen -dmS " ++ session ++ " " ++ cmd
        else cmd
    | None => cmd
    end in
  let cmd := ssh_cmd cfg cmd in
  proc <- subprocess_run w cmd (_prepare_subprocess_kwargs kwargs) ;;
  ret proc.

Definition _execute : M unit :=
  _ <- _execute_remote_cmd (command cfg) None ∅ ;;
  ret tt.

End Instance.

End CPUJob.

(** The monad of a computation that reads and may raise. *)
Definition rbind {A B} (r : result A) (k : A -> result B) : result B :=
  match r with
  | Ok a => k a
  | Raise e => Raise e
  end.
Notation "x <-! r ;; k" := (rbind r (fun x => k))
  (at level 100, r at next level, right associativity) : py_scope.

(** ** urllib.parse.urlparse (Python standard library) *)

Module Urllib.

Record ParseResult := {
  scheme : string;
  netloc : string;
  path : string;
  params : string;
  query : string;
  fragment : string;
}.

(** The longest prefix of [s] with no character in [p], and what follows
    it (empty, or starting with a character in [p]). *)
Fixpoint break_at (p : ascii -> bool) (s : string) : string * string :=
  match s with
  | EmptyString => (EmptyString, EmptyString)
  | String c rest =>
      if p c then (EmptyString, s)
      else let (a, b) := break_at p rest in (String c a, b)
  end.

Definition tail (s : string) : string :=
  match s with
  | EmptyString => EmptyString
  | String _ rest => rest
  end.

(** [url.split(c, 1)] when [c] is in [url], [(url, "")] otherwise. *)
Definition split_once (c : ascii) (url : string) : string * string :=
  let (a, b) := break_at (Ascii.eqb c) url in (a, tail b).

Definition scheme_char (c : ascii) : bool :=
  is_ascii_alpha c || is_ascii_digit c || mem_char c "+-.".

Definition uses_params : list string :=
  [EmptyString; "ftp"; "hdl"; "prospero"; "http"; "imap"; "https"; "shttp"; "rtsp";
   "rtspu"; "sip"; "sips"; "mms"; "sftp"; "tel"].

(** The scheme, when the text before the first colon is one. *)
Definition split_scheme (url : string) : string * string :=
  let (pre, post) := break_at (Ascii.eqb ":"%char) url in
  match pre, post with
  | String c _, String _ rest =>
      if is_ascii_alpha c && forall_chars scheme_char pre then (lower pre, rest)
      else (EmptyString, url)
  | _, _ => (EmptyString, url)
  end.

(** [_splitnetloc(url, 2)] behind a leading [//]. *)
Definition split_netloc (url : string) : string * string :=
  match url with
  | String "/"%char (String "/"%char rest) =>
      break_at (fun c => mem_char c "/?#") rest
  | _ => (EmptyString, url)
  end.

(** The part of [s] from its last [c] on. *)
Fixpoint from_last (c : ascii) (s : string) : option string :=
  match s with
  | EmptyString => None
  | String d rest =>
      match from_last c rest with
      | Some t => Some t
      | None => if Ascii.eqb d c then Some s else None
      end
  end.

(** [_splitparams]: the parameters of the last path segment. *)
Definition split_params (url : string) : string * string :=
  match from_last slash url with
  | Some seg =>
      let (a, b) := break_at (Ascii.eqb ";"%char) seg in
      match b with
      | EmptyString => (url, EmptyString)
      | String _ ps => (substring 0 (String.length url - String.length seg) url ++ a, ps)
      end
  | None => split_once ";"%char url
  end.

(** Two checks of the network location are Python's own and differ
    between its versions: the check of a location that has both brackets
    ([_check_bracketed_netloc], [_check_bracketed_host], on the module
    ipaddress) and the check of a location that is not ASCII under NFKC
    normalisation (the body of [_checknetloc], on the module
    unicodedata). They are taken as they come: each gives the message of
    the [ValueError] it raises on a location, if it raises. *)
Record Checks := {
  bracketed_netloc : string -> option string;
  normalised_netloc : string -> option string;
}.

(** [_WHATWG_C0_CONTROL_OR_SPACE]: the characters up to the space. *)
Definition c0_control_or_space (c : ascii) : bool := (nat_of_ascii c <=? 32)%nat.

(** [_UNSAFE_URL_BYTES_TO_REMOVE]: tab, carriage return, line feed. *)
Definition unsafe_byte (c : ascii) : bool :=
  Ascii.eqb c "009"%char || Ascii.eqb c "013"%char || Ascii.eqb c "010"%char.

(** [s.lstrip(chars)]. *)
Fixpoint lstrip (p : ascii -> bool) (s : string) : string :=
  match s with
  | String c rest => if p c then lstrip p rest else s
  | EmptyString => EmptyString
  end.

(** [s.replace(b, "")] for every [b] of [p]. *)
Fixpoint remove (p : ascii -> bool) (s : string) : string :=
  match s with
  | String c rest => if p c then remove p rest else String c (remove p rest)
  | EmptyString => EmptyString
  end.

Definition is_ascii (c : ascii) : bool := (nat_of_ascii c <? 128)%nat.

(** The checks of the brackets behind [_splitnetloc]. Without a leading
    [//] the location is empty and they pass. *)
Definition check_brackets (checks : Checks) (netloc : string) : result unit :=
  let opening := mem_char "["%char netloc in
  let closing := mem_char "]"%char netloc in
  if (opening && negb closing) || (closing && negb opening)
  then Raise (ValueError "Invalid IPv6 URL")
  else if opening && closing
  then match bracketed_netloc checks netloc with
       | Some msg => Raise (ValueError msg)
       | None => Ok tt
       end
  else Ok tt.

(** [_checknetloc]: nothing to check on an empty or ASCII location. *)
Definition _checknetloc (checks : Checks) (netloc : string) : result unit :=
  if String.eqb netloc EmptyString || forall_chars is_ascii netloc then Ok tt
  else match normalised_netloc checks netloc with
       | Some msg => Raise (ValueError msg)
       | None => Ok tt
       end.

(** [urlsplit(url)]: the leading control characters and spaces are
    stripped and tab, CR and LF removed; then scheme, network location
    with the checks of its brackets, fragment, query. *)
Definition urlsplit (checks : Checks) (url : string)
    : result (string * string * string * string * string) :=
  let url := lstrip c0_control_or_space url in
  let url := remove unsafe_byte url in
  let (scheme, url) := split_scheme url in
  let (netloc, url) := split_netloc url in
  _ <-! check_brackets checks netloc ;;
  let (url, fragment) := split_once "#"%char url in
  let (url, query) := split_once "?"%char url in
  _ <-! _checknetloc checks netloc ;;
  Ok (scheme, netloc, url, query, fragment).

(** [urlparse(url)]: [urlsplit], then the parameters for the schemes that
    have them. *)
Definition urlparse (checks : Checks) (url : string) : result ParseResult :=
  splitresult <-! urlsplit checks url ;;
  let '(scheme, netloc, url, query, fragment) := splitresult in
  let (url, params) :=
    if existsb (String.eqb scheme) uses_params && mem_char ";"%char url
    then split_params url else (url, EmptyString) in
  Ok {| scheme := scheme; netloc := netloc; path := url; params := params;
        query := query; fragment := fragment |}.

End Urllib.

(** ** Manifests: nested dicts and lists *)

(** A [Nested[Any]]: a dict keeps the order in which its keys were set. *)
#[local] Unset Elimination Schemes.
Inductive tree :=
| TStr (s : string)
| TInt (z : Z)
| TBool (b : bool)
| TNone
| TList (l : list tree)
| TDict (d : list (string * tree)).
#[local] Set Elimination Schemes.

Module Dict.

(** [d[k] = v]: the value of a key that is there is replaced where it
    stands, a new key goes last. *)
Fixpoint set (k : string) (v : tree) (d : list (string * tree)) : list (string * tree) :=
  match d with
  | [] => [(k, v)]
  | (k', v') :: rest =>
      if String.eqb k' k then (k', v) :: rest else (k', v') :: set k v rest
  end.

(** [d.update(other)], which is also [{**d, **other}]. *)
Definition update (d other : list (string * tree)) : list (string * tree) :=
  fold_left (fun acc kv => set (fst kv) (snd kv) acc) other d.

(** [d.get(k)]. *)
Fixpoint get (k : string) (d : list (string * tree)) : option tree :=
  match d with
  | [] => None
  | (k', v) :: rest => if String.eqb k' k then Some v else get k rest
  end.

(** [k in d]. *)
Definition mem (k : string) (d : list (string * tree)) : bool :=
  match get k d with Some _ => true | None => false end.

End Dict.

(** [t[k]] on a tree that is a dict. *)
Definition field (k : string) (t : tree) : option tree :=
  match t with
  | TDict d => Dict.get k d
  | _ => None
  end.

(** [t[k1][k2]...]. *)
Fixpoint at_path (ks : list string) (t : tree) : option tree :=
  match ks with
  | [] => Some t
  | k :: rest =>
      match field k t with
      | Some t' => at_path rest t'
      | None => None
      end
  end.

Definition opt_str (o : option string) : tree :=
  match o with
  | Some s => TStr s
  | None => TNone
  end.

(** ** TPUGKEJob: a TPU job as a k8s JobSet *)

Record GCSFuseMount := {
  gcs_path : string;
  mount_path : string;
  cpu : string;
  memory : string;
  ephemeral_gb : string;
  read_only : bool;
}.

(** The defaults of the dataclass. *)
Definition gcsfuse_mount_of (gcs_path : string) : GCSFuseMount :=
  {| gcs_path := gcs_path; mount_path := "/output"; cpu := "250m"; memory := "256Mi";
     ephemeral_gb := "5Gi"; read_only := false |}.

(** The fields of a row of the table of system characteristics that the
    builder reads. *)
Record SystemCharacteristics := {
  topology : string;
  vms_per_slice : Z;
  gke_accelerator : string;
  chips_per_vm : Z;
}.

(** A bundler configuration: whether its class is a docker bundler, the
    identifier the bundler built from it gives to a name, and the
    configuration it wraps, when it has an attribute [inner]. *)
Record BundlerConfig := {
  klass_is_docker : bool;
  bundler_id : string -> string;
  inner : option (option bool);
}.

Module TPUGKEJob.

Record Config := {
  base : GCPJobConfig;
  bundler : option BundlerConfig;
  env_vars : list (string * pyval);
  namespace : string;
  gcsfuse_mount : option GCSFuseMount;
  accelerator : AcceleratorConfig;
  reservation : option string;
}.

Record Job := {
  config : Config;
  _tpu_type : string;
  _gcsfuse_volume : string;
}.

Section Builder.
(** The table of axlearn.cloud.gcp.system_characteristics and
    [infer_tpu_type] of axlearn.cloud.gcp.tpu, which are not among the
    sources, are taken as they come. *)
Variable USER_FACING_NAME_TO_SYSTEM_CHARACTERISTICS : gmap string SystemCharacteristics.
Variable infer_tpu_type : string -> result string.

Definition __init__ (cfg : Config) : result Job :=
  let docker :=
    match bundler cfg with
    | None => false
    | Some b =>
        match inner b with
        | None => klass_is_docker b
        | Some None => false
        | Some (Some inner_is_docker) => inner_is_docker
        end
    end in
  if negb docker then Raise (NotImplementedError "Only docker bundler supported")
  else
    tpu_type <-! infer_tpu_type (instance_type (accelerator cfg)) ;;
    match USER_FACING_NAME_TO_SYSTEM_CHARACTERISTICS !! tpu_type with
    | None => Raise (NotImplementedError ("Missing system characteristics for " ++ tpu_type))
    | Some _ =>
        Ok {| config := cfg; _tpu_type := tpu_type;
              _gcsfuse_volume := "gcs-fuse-csi-ephemeral" |}
    end.

(** The checks of [urlparse] that are Python's own. *)
Variable checks : Urllib.Checks.
Variable w : World.
Variable self : Job.

(** [USER_FACING_NAME_TO_SYSTEM_CHARACTERISTICS[self._tpu_type]]. *)
Definition system_of : result SystemCharacteristics :=
  match USER_FACING_NAME_TO_SYSTEM_CHARACTERISTICS !! _tpu_type self with
  | Some system => Ok system
  | None => Raise (KeyError (_tpu_type self))
  end.

Definition image : string :=
  match bundler (config self) with
  | Some b => bundler_id b (name (base (config self)))
  | None => EmptyString
  end.

Definition _build_container : result tree :=
  let cfg := config self in
  system <-! system_of ;;
  let volume_mounts :=
    match gcsfuse_mount cfg with
    | Some m =>
        [TDict [("name", TStr (_gcsfuse_volume self));
                ("mountPath", TStr (mount_path m));
                ("readOnly", TBool (read_only m))]]
    | None => []
    end in
  Ok (TDict
    [("name", TStr (name (base cfg)));
     ("image", TStr image);
     ("ports", TList [TDict [("containerPort", TInt 8471)];
                      TDict [("containerPort", TInt 8080)];
                      TDict [("containerPort", TInt 8431)]]);
     ("securityContext", TDict [("privileged", TBool true)]);
     ("command", TList [TStr "bash"; TStr "-c"; TStr (command (base cfg))]);
     ("resources", TDict [("limits", TDict [("google.com/tpu", TInt (chips_per_vm system))])]);
     ("env", TList (map (fun kv => TDict [("name", TStr (fst kv));
                                           ("value", TStr (str (snd kv)))])
                        (env_vars cfg)));
     ("volumeMounts", TList volume_mounts)]).

Definition _build_pod : result tree :=
  let cfg := config self in
  system <-! system_of ;;
  mounted <-!
    match gcsfuse_mount cfg with
    | Some m =>
        parsed <-! Urllib.urlparse checks (gcs_path m) ;;
        Ok (Dict.update []
              [("gke-gcsfuse/volumes", TStr "true");
               ("gke-gcsfuse/cpu-limit", TStr (cpu m));
               ("gke-gcsfuse/memory-limit", TStr (memory m));
               ("gke-gcsfuse/ephemeral-storage-limit", TStr (ephemeral_gb m))],
            [TDict
               [("name", TStr (_gcsfuse_volume self));
                ("csi", TDict
                   [("driver", TStr "gcsfuse.csi.storage.gke.io");
                    ("readOnly", TBool (read_only m));
                    ("volumeAttributes", TDict
                       [("bucketName", TStr (Urllib.netloc parsed));
                        ("mountOptions",
                         TStr ("only-dir=" ++ lstrip_char slash (Urllib.path parsed)))])])]])
    | None => Ok ([], [])
    end ;;
  let '(annotations, volumes) := mounted in
  let tier := environ w !! "BASTION_TIER" in
  let selector :=
    if bool_decide (tier = Some "0") && opt_truthy (reservation cfg)
    then Dict.update [] [("cloud.google.com/reservation-name", opt_str (reservation cfg))]
    else Dict.update [] [("cloud.google.com/gke-spot", TStr "true")] in
  container <-! _build_container ;;
  Ok (TDict
    [("metadata", TDict [("annotations", TDict annotations)]);
     ("spec", TDict
        [("terminationGracePeriodSeconds", TInt 60);
         ("restartPolicy", TStr "Never");
         ("nodeSelector", TDict
            (Dict.update
               [("cloud.google.com/gke-tpu-accelerator", TStr (gke_accelerator system));
                ("cloud.google.com/gke-tpu-topology", TStr (topology system));
                ("provisioner-nodepool-id", TStr (name (base cfg)))]
               selector));
         ("containers", TList [container]);
         ("serviceAccountName", opt_str (service_account (base cfg)));
         ("volumes", TList volumes)])]).

Definition _build_job : result tree :=
  system <-! system_of ;;
  pod <-! _build_pod ;;
  Ok (TDict
    [("spec", TDict
        [("parallelism", TInt (vms_per_slice system));
         ("completions", TInt (vms_per_slice system));
         ("backoffLimit", TInt 0);
         ("template", pod)])]).

Definition _build_jobset : result tree :=
  let cfg := config self in
  job <-! _build_job ;;
  Ok (TDict
    [("metadata", TDict
        [("name", TStr (name (base cfg)));
         ("annotations", TDict
            [("alpha.jobset.sigs.k8s.io/exclusive-topology",
              TStr "cloud.google.com/gke-nodepool")])]);
     ("spec", TDict
        [("failurePolicy", TDict [("maxRestarts", TInt (max_tries (base cfg) - 1))]);
         ("replicatedJobs", TList
            [TDict [("name", TStr "job");
                    ("replicas", TInt (num_replicas (accelerator cfg)));
                    ("template", job)]])])]).

End Builder.

End TPUGKEJob.

(** ** Reading traces and outcomes

    What follows is the vocabulary of the properties, not code of the
    source. *)

(** A character behind a backslash. *)
Definition backslashed (c : ascii) : string := String backslash (String c EmptyString).

(** The state after more events. *)
Definition emit (evs : list event) (st : State) : State :=
  {| _use_iap := _use_iap st; trace := trace st ++ evs |}.

(** The answers of the live queries of a trace, in order: [true] for a
    node that was found. *)
Fixpoint queries (evs : list event) : list bool :=
  match evs with
  | [] => []
  | EvLiveQuery _ _ found :: rest => found :: queries rest
  | _ :: rest => queries rest
  end.

(** The command lines of the gcloud invocations of a trace, in order. *)
Fixpoint ssh_invocations (evs : list event) : list string :=
  match evs with
  | [] => []
  | EvRun cmd :: rest =>
      if String.prefix "gcloud " cmd then cmd :: ssh_invocations rest
      else ssh_invocations rest
  | _ :: rest => ssh_invocations rest
  end.

(** The result of a command that ran to its end. *)
Definition completed (w : World) (cmdline : string) : CompletedProcess :=
  {| args := cmdline; returncode := exit_status w cmdline |}.

(** Whether a non-zero exit status of [cmdline] raises under [kwargs]. *)
Definition trips (w : World) (kwargs : gmap string pyval) (cmdline : string) : bool :=
  check_of (_prepare_subprocess_kwargs kwargs) && negb (exit_status w cmdline =? 0)%Z.

Module Dispatch.
Import TPUQRMJob.

(** The node the live query of the job would find. *)
Definition node_of (w : World) (cfg : Config) : option Node :=
  if (1 <? num_replicas (accelerator cfg))%Z
  then get_queued_tpu_node w (name (base cfg))
  else get_tpu_node w (name (base cfg)).

(** The ssh flags of a call made in state [st], [None] when the node that
    has to be queried does not exist. *)
Definition flags_of (w : World) (cfg : Config) (st : State) (extra_ssh_flags : string)
    : option string :=
  if running_from_vm w then Some ("--internal-ip " ++ extra_ssh_flags)
  else
    match _use_iap st, node_of w cfg with
    | Some true, _ => Some ("--tunnel-through-iap " ++ extra_ssh_flags)
    | Some false, _ => Some extra_ssh_flags
    | None, Some node =>
        if has_public_ip node then Some extra_ssh_flags
        else Some ("--tunnel-through-iap " ++ extra_ssh_flags)
    | None, None => None
    end.

(** What the routing of a call made in state [st] does to the instance:
    [u] is the cache after it, [qs] the answers of the live queries it
    made. *)
Definition routed (w : World) (cfg : Config) (st : State) (u : option bool)
    (qs : list bool) : Prop :=
  if running_from_vm w then u = _use_iap st /\ qs = []
  else
    match _use_iap st with
    | Some b => u = Some b /\ qs = []
    | None =>
        match node_of w cfg with
        | Some _ => is_Some u /\ qs = [true]
        | None => u = None /\ qs = [false]
        end
    end.

(** The session name of a call, when it asks for one. *)
Definition session_of (c : Call) : option string :=
  match detached_session c with
  | Some session => if String.eqb session EmptyString then None else Some session
  | None => None
  end.

(** The session name, if any, has at most 80 characters. *)
Definition session_fits (c : Call) : bool :=
  match session_of c with
  | Some session => (String.length session <=? 80)%nat
  | None => true
  end.

(** The command handed to gcloud, behind [screen] when a session is asked
    for. *)
Definition remote_cmd (c : Call) : string :=
  let cmd := "sudo bash -c " ++ _prepare_cmd_for_gcloud_ssh ("pushd /root && " ++ cmd c) in
  match session_of c with
  | Some session => "sudo screen -dmS " ++ session ++ " " ++ cmd
  | None => cmd
  end.

(** The command lines of a call, one per slice. *)
Definition cmd_lines (cfg : Config) (c : Call) (flags : string) : list string :=
  map (fun s => cmd_for_slice cfg s (worker c) (batch_size c) flags (remote_cmd c))
      (slices cfg).

End Dispatch.

(** ** Sample jobs and worlds *)

Module Sample.

Definition job : GCPJobConfig :=
  {| name := "job"; command := "echo hi"; max_tries := 3; project := "proj";
     zone := "us-central2-b"; service_account := None |}.

(** A TPU job of [n] slices. *)
Definition tpu (n : Z) : TPUQRMJob.Config :=
  {| TPUQRMJob.base := job;
     TPUQRMJob.accelerator := {| instance_type := "tpu-v4-8"; num_replicas := n |} |}.

(** A node with one endpoint of one access config. *)
Definition node (ip : option string) : Node :=
  {| networkEndpoints := [{| accessConfig := [{| natIP := ip |}] |}] |}.

(** A world: inside the cloud network or not, with the node the live
    queries find, the scheduling tier of the environment, and a command
    whose prefix makes it exit with status 1 (every other command exits
    with 0). *)
Definition world (from_vm : bool) (found : option Node) (tier : option string)
    (failing : string) : World :=
  {| running_from_vm := from_vm;
     environ := match tier with Some t => {["BASTION_TIER" := t]} | None => ∅ end;
     path_exists := fun _ => true;
     get_tpu_node := fun _ => found;
     get_queued_tpu_node := fun _ => found;
     exit_status := fun cmd => if String.prefix failing cmd then 1%Z else 0%Z |}.

Definition home : string := "/home/user".

(** A session name of [n] characters. *)
Definition session (n : nat) : string := string_of_list_ascii (List.repeat "a"%char n).

(** One row of system characteristics, for a slice of two hosts. *)
Definition system : SystemCharacteristics :=
  {| topology := "2x2x2"; vms_per_slice := 2; gke_accelerator := "tpu-v4-podslice";
     chips_per_vm := 4 |}.

Definition table : gmap string SystemCharacteristics := {["v4-16" := system]}.

(** The TPU type of an instance type: what follows [tpu-]. *)
Definition infer (instance_type : string) : result string :=
  if String.prefix "tpu-" instance_type
  then Ok (substring 4 (String.length instance_type - 4) instance_type)
  else Raise (ValueError ("Invalid TPU instance: " ++ instance_type)).

(** Checks of [urlparse] that let every location pass that they are asked
    about; they are asked about none that has no bracket and is ASCII. *)
Definition checks : Urllib.Checks :=
  {| Urllib.bracketed_netloc := fun _ => None;
     Urllib.normalised_netloc := fun _ => None |}.

Definition docker : BundlerConfig :=
  {| klass_is_docker := true;
     bundler_id := fun name => "gcr.io/proj/" ++ name ++ ":latest";
     inner := None |}.

(** A GKE job of [n] slices of type v4-16. *)
Definition gke (n : Z) (reservation : option string) (mount : option GCSFuseMount)
    : TPUGKEJob.Config :=
  {| TPUGKEJob.base := job;
     TPUGKEJob.bundler := Some docker;
     TPUGKEJob.env_vars := [("STEPS", PyInt 10)];
     TPUGKEJob.namespace := "default";
     TPUGKEJob.gcsfuse_mount := mount;
     TPUGKEJob.accelerator := {| instance_type := "tpu-v4-16"; num_replicas := n |};
     TPUGKEJob.reservation := reservation |}.

(** The instance [__init__] makes of it. *)
Definition gke_job (n : Z) (reservation : option string) (mount : option GCSFuseMount)
    : TPUGKEJob.Job :=
  {| TPUGKEJob.config := gke n reservation mount;
     TPUGKEJob._tpu_type := "v4-16";
     TPUGKEJob._gcsfuse_volume := "gcs-fuse-csi-ephemeral" |}.

End Sample.

(** ** More of job.py: docker_command *)

(** [sep.join(l)]. *)
Fixpoint join (sep : string) (l : list string) : string :=
  match l with
  | [] => EmptyString
  | [x] => x
  | x :: rest => x ++ sep ++ join sep rest
  end.

(** [docker_command] (lines 650-683). An absent optional argument is
    [None]; [volumes] is a dict, read in the order of its items. *)
Definition docker_command (cmd image : string) (detached_session : option string)
    (env : option (list string)) (volumes : option (list (string * string)))
    (extra_docker_flags : option (list string)) : string :=
  let cmd := _prepare_cmd_for_gcloud_ssh ("pushd /root && " ++ cmd) in
  let cmd := "/bin/bash -c " ++ cmd in
  let env := join " " (map (fun e => "-e " ++ e) (default [] env)) in
  let volumes :=
    join " " (map (fun sd => "-v " ++ fst sd ++ ":" ++ snd sd) (default [] volumes)) in
  let extra_docker_flags := join " " (default [] extra_docker_flags) in
  let detached :=
    match detached_session with
    | Some session =>
        if negb (String.eqb session EmptyString) then "-d --name=" ++ session
        else EmptyString
    | None => EmptyString
    end in
  "docker run --rm --privileged -u root --network=host " ++ detached ++ " " ++ env ++ " "
  ++ volumes ++ " " ++ extra_docker_flags ++ " " ++ image ++ " " ++ cmd.

(** ** More vocabulary *)

Definition backquote : ascii := "096"%char.
Definition newline : ascii := "010"%char.

(** What a POSIX shell makes of the inside of a double-quoted word: a
    backslash before a dollar, a backquote, a double quote or a backslash
    is dropped and the character kept; a backslash before a newline goes
    with it; any other backslash stays. [None] when a bare double quote
    ends the word before its end, or a bare dollar or backquote starts an
    expansion. *)
Fixpoint dquote_read (s : string) : option string :=
  match s with
  | EmptyString => Some EmptyString
  | String c rest =>
      if Ascii.eqb c backslash then
        match rest with
        | EmptyString => Some (String backslash EmptyString)
        | String d rest' =>
            if Ascii.eqb d dollar || Ascii.eqb d backquote || Ascii.eqb d dquote
               || Ascii.eqb d backslash
            then option_map (String d) (dquote_read rest')
            else if Ascii.eqb d newline then dquote_read rest'
            else option_map (fun t => String backslash (String d t)) (dquote_read rest')
        end
      else if Ascii.eqb c dquote || Ascii.eqb c dollar || Ascii.eqb c backquote then None
      else option_map (String c) (dquote_read rest)
  end.

(** The job with another reservation in its configuration. *)
Definition with_reservation (r : option string) (self : TPUGKEJob.Job) : TPUGKEJob.Job :=
  let cfg := TPUGKEJob.config self in
  {| TPUGKEJob.config :=
       {| TPUGKEJob.base := TPUGKEJob.base cfg;
          TPUGKEJob.bundler := TPUGKEJob.bundler cfg;
          TPUGKEJob.env_vars := TPUGKEJob.env_vars cfg;
          TPUGKEJob.namespace := TPUGKEJob.namespace cfg;
          TPUGKEJob.gcsfuse_mount := TPUGKEJob.gcsfuse_mount cfg;
          TPUGKEJob.accelerator := TPUGKEJob.accelerator cfg;
          TPUGKEJob.reservation := r |};
     TPUGKEJob._tpu_type := TPUGKEJob._tpu_type self;
     TPUGKEJob._gcsfuse_volume := TPUGKEJob._gcsfuse_volume self |}.

(** Whether the bundler of a configuration, or the one it wraps, is a
    docker bundler: the test of [TPUGKEJob.__init__]. *)
Definition docker_bundler (b : option BundlerConfig) : bool :=
  match b with
  | None => false
  | Some b =>
      match inner b with
      | None => klass_is_docker b
      | Some None => false
      | Some (Some inner_is_docker) => inner_is_docker
      end
  end.

(** ** More of job.py: the ssh-agent *)

Module Agent.

(** What the agent functions act on: [os.environ], the functions
    registered with [atexit], and the commands run so far. *)
Record Proc := {
  environ : gmap string string;
  atexit : list string;
  runs : list string;
}.

(** The exit status and the standard output of a command. *)
Record Shell := {
  exit_of : string -> Z;
  stdout_of : string -> string;
}.

(** How a call ends: normally, with an exception of [exn], or with the
    AttributeError of [match.groups()] on no match. *)
Inductive outcome (A : Type) :=
| Done (a : A)
| Raised (e : exn)
| AttributeError.
Arguments Done {A} a.
Arguments Raised {A} e.
Arguments AttributeError {A}.

(** Modelled from the spec: [subprocess_run(cmd, check=check, ...)] giving
    the standard output, as [subprocess_run] above, on this state. *)
Definition run (sh : Shell) (cmd : string) (check : bool) (p : Proc) : outcome string * Proc :=
  let p := {| environ := environ p; atexit := atexit p; runs := runs p ++ [cmd] |} in
  if check && negb (exit_of sh cmd =? 0)%Z
  then (Raised (CheckedExit (exit_of sh cmd) cmd), p)
  else (Done (stdout_of sh cmd), p).

(** [s] behind the prefix [p], when it starts with it. *)
Fixpoint strip_prefix (p s : string) : option string :=
  match p with
  | EmptyString => Some s
  | String a p' =>
      match s with
      | String b s' => if Ascii.eqb a b then strip_prefix p' s' else None
      | EmptyString => None
      end
  end.

(** The characters of [s] up to its first semicolon, and what follows the
    semicolon. *)
Fixpoint to_semicolon (s : string) : option (string * string) :=
  match s with
  | EmptyString => None
  | String c rest =>
      if Ascii.eqb c ";"%char then Some (EmptyString, rest)
      else
        match to_semicolon rest with
        | Some (g, r) => Some (String c g, r)
        | None => None
        end
  end.

(** A match of [([^;]+);] at the start of [s]: the group, which is not
    empty, and what follows the semicolon. *)
Definition group (s : string) : option (string * string) :=
  match to_semicolon s with
  | Some (String c g, r) => Some (String c g, r)
  | _ => None
  end.

(** A match of [SSH_AGENT_PID=([^;]+);] at the start of [s]. *)
Definition pid_at (s : string) : option string :=
  match strip_prefix "SSH_AGENT_PID=" s with
  | Some r => option_map fst (group r)
  | None => None
  end.

(** A match of [.*SSH_AGENT_PID=([^;]+);] at the start of [s], any
    character counting for the dot: the star is greedy, so the match that
    starts last wins. *)
Fixpoint last_pid (s : string) : option string :=
  match s with
  | EmptyString => None
  | String _ rest =>
      match last_pid rest with
      | Some g => Some g
      | None => pid_at s
      end
  end.

(** A match of the whole pattern at the start of [s]. *)
Definition match_at (s : string) : option (string * string) :=
  match strip_prefix "SSH_AUTH_SOCK=" s with
  | Some r =>
      match group r with
      | Some (auth_sock, rest) =>
          match last_pid rest with
          | Some agent_pid => Some (auth_sock, agent_pid)
          | None => None
          end
      | None => None
      end
  | None => None
  end.

(** [re.search(r"SSH_AUTH_SOCK=([^;]+);.*SSH_AGENT_PID=([^;]+);", s,
    re.MULTILINE | re.DOTALL)]: the groups of the leftmost match. *)
Fixpoint search (s : string) : option (string * string) :=
  match match_at s with
  | Some groups => Some groups
  | None =>
      match s with
      | EmptyString => None
      | String _ rest => search rest
      end
  end.

(** [_kill_ssh_agent] (lines 609-613). *)
Definition _kill_ssh_agent (sh : Shell) (p : Proc) : outcome unit * Proc :=
  let (_, p) := run sh "ssh-agent -k" false p in
  (Done tt,
   {| environ := delete "SSH_AGENT_PID" (delete "SSH_AUTH_SOCK" (environ p));
      atexit := atexit p; runs := runs p |}).

(** [_start_ssh_agent] (lines 616-639). The two assignments to
    [os.environ] are modelled for values it accepts: it refuses a value
    with a NUL character, which [ssh-agent] does not print. *)
Definition _start_ssh_agent (sh : Shell) (p : Proc) : outcome unit * Proc :=
  if negb (opt_truthy (environ p !! "SSH_AGENT_PID")) then
    match run sh "ssh-agent -s" true p with
    | (Done stdout, p) =>
        match search stdout with
        | Some (auth_sock, agent_pid) =>
            (Done tt,
             {| environ := <["SSH_AGENT_PID" := agent_pid]>
                             (<["SSH_AUTH_SOCK" := auth_sock]> (environ p));
                atexit := atexit p ++ ["_kill_ssh_agent"];
                runs := runs p |})
        | None => (AttributeError, p)
        end
    | (Raised e, p) => (Raised e, p)
    | (AttributeError, p) => (AttributeError, p)
    end
  else (Done tt, p).

(** The end of the program: the functions registered with [atexit] are
    called, the last registered first; the only one the code registers is
    [_kill_ssh_agent]. *)
Definition at_exit (sh : Shell) (p : Proc) : Proc :=
  fold_left (fun p _ => snd (_kill_ssh_agent sh p)) (rev (atexit p)) p.

(** The output of [ssh-agent -s] as the comments of the code give it, for
    a socket and a process id. *)
Definition agent_output (sock pid : string) : string :=
  "SSH_AUTH_SOCK=" ++ sock ++ "; export SSH_AUTH_SOCK;" ++ String newline
    ("SSH_AGENT_PID=" ++ pid ++ "; export SSH_AGENT_PID;" ++ String newline
       ("echo Agent pid " ++ pid ++ ";" ++ String newline EmptyString)).

End Agent.

(** * Properties *)

(** ** The command escaper *)

Section Escaper.

Lemma escaped_replace_self (c : ascii) :
  c <> backslash ->
  forall s prev, escaped_from prev c (replace_char c (backslashed c) s) = true.
Proof.
  intros Hc s.
  assert (Ascii.eqb backslash c = false) as Hbc by (apply Ascii.eqb_neq; congruence).
  induction s as [|d rest IH]; intros prev; [reflexivity|].
  cbn [replace_char]. destruct (Ascii.eqb d c) eqn:Hd.
  - cbn [backslashed append escaped_from].
    rewrite Hbc, !Ascii.eqb_refl, IH. reflexivity.
  - cbn [escaped_from]. rewrite Hd, IH. reflexivity.
Qed.

Lemma escaped_replace_other (c d : ascii) :
  c <> d -> c <> backslash -> d <> backslash ->
  forall s prev, escaped_from prev c s = true ->
                 escaped_from prev c (replace_char d (backslashed d) s) = true.
Proof.
  intros Hcd Hc Hd s.
  assert (Ascii.eqb backslash c = false) as Hbc by (apply Ascii.eqb_neq; congruence).
  assert (Ascii.eqb d c = false) as Hdc by (apply Ascii.eqb_neq; congruence).
  assert (Ascii.eqb d backslash = false) as Hdb by (apply Ascii.eqb_neq; congruence).
  induction s as [|a rest IH]; intros prev H; [reflexivity|].
  cbn [escaped_from] in H. apply andb_true_iff in H as [H1 H2].
  cbn [replace_char]. destruct (Ascii.eqb a d) eqn:Ha.
  - apply Ascii.eqb_eq in Ha. subst a.
    cbn [backslashed append escaped_from].
    rewrite Hbc, Hdc, Ascii.eqb_refl, Hdb. cbn [negb orb andb].
    apply IH. rewrite Hdb in H2. exact H2.
  - cbn [escaped_from]. rewrite H1. cbn [andb]. apply IH. exact H2.
Qed.

(** X1. In the escaped command every double quote and every dollar has a
    backslash just before it. *)
Lemma prepare_cmd_always_escaped (cmd : string) :
  always_escaped dquote (_prepare_cmd_for_gcloud_ssh cmd) = true /\
  always_escaped dollar (_prepare_cmd_for_gcloud_ssh cmd) = true.
Proof.
  unfold _prepare_cmd_for_gcloud_ssh, always_escaped. split.
  - apply (escaped_replace_other dquote dollar); try discriminate.
    apply (escaped_replace_self dquote). discriminate.
  - apply (escaped_replace_self dollar). discriminate.
Qed.

Lemma mem_char_app (c : ascii) (s t : string) :
  mem_char c (s ++ t) = mem_char c s || mem_char c t.
Proof.
  induction s as [|d rest IH]; [reflexivity|].
  simpl. rewrite IH. apply orb_assoc.
Qed.

Lemma mem_char_replace (c d : ascii) (new s : string) :
  mem_char c new = false -> mem_char c s = false ->
  mem_char c (replace_char d new s) = false.
Proof.
  intros Hnew. induction s as [|a rest IH]; intros H; [reflexivity|].
  simpl in H. apply orb_false_iff in H as [H1 H2].
  simpl. destruct (Ascii.eqb a d).
  - rewrite mem_char_app, Hnew, IH; auto.
  - simpl. rewrite H1, IH; auto.
Qed.

Lemma quote_keeps_backslash_free (s : string) :
  mem_char backslash s = false -> mem_char backslash (Shlex.quote s) = false.
Proof.
  intros H. unfold Shlex.quote. destruct s as [|c rest]; [reflexivity|].
  destruct (Shlex.all_safe (String c rest)); [exact H|].
  cbn [mem_char]. rewrite mem_char_app.
  rewrite mem_char_replace; [reflexivity|reflexivity|exact H].
Qed.

Lemma closes_dquote_escaped (s : string) :
  mem_char backslash s = false ->
  closes_dquote
    (replace_char dollar (backslashed dollar) (replace_char dquote (backslashed dquote) s)) = false.
Proof.
  induction s as [|a rest IH]; intros H; [reflexivity|].
  cbn [mem_char] in H. apply orb_false_iff in H as [H1 H2].
  cbn [replace_char]. destruct (Ascii.eqb a dquote) eqn:Hq.
  - cbn [backslashed append replace_char].
    change (Ascii.eqb backslash dollar) with false.
    change (Ascii.eqb dquote dollar) with false.
    cbn [closes_dquote]. rewrite Ascii.eqb_refl. apply IH, H2.
  - cbn [replace_char]. destruct (Ascii.eqb a dollar) eqn:Hd.
    + cbn [backslashed append closes_dquote]. rewrite Ascii.eqb_refl. apply IH, H2.
    + cbn [closes_dquote]. rewrite H1, Hq. apply IH, H2.
Qed.

(** X2. A command with no backslash in it stays inside the double quotes of
    the [--command] argument. *)
Lemma prepare_cmd_safe_without_backslash (cmd : string) :
  mem_char backslash cmd = false ->
  closes_dquote (_prepare_cmd_for_gcloud_ssh cmd) = false.
Proof.
  intros H. unfold _prepare_cmd_for_gcloud_ssh.
  apply closes_dquote_escaped, quote_keeps_backslash_free, H.
Qed.

End Escaper.

(** ** Keyword arguments *)

Section Kwargs.
Implicit Types (kwargs : gmap string pyval) (k : string) (v : pyval).

Lemma setdefault_present k v kwargs :
  is_Some (kwargs !! k) -> setdefault k v kwargs = kwargs.
Proof. intros [x Hx]. unfold setdefault. now rewrite Hx. Qed.

Lemma lookup_setdefault_ne k k' v kwargs :
  k <> k' -> setdefault k v kwargs !! k' = kwargs !! k'.
Proof.
  intros Hne. unfold setdefault.
  destruct (kwargs !! k); [reflexivity|]. now apply lookup_insert_ne.
Qed.

Lemma lookup_setdefault k v kwargs :
  setdefault k v kwargs !! k = Some (default v (kwargs !! k)).
Proof.
  unfold setdefault. destruct (kwargs !! k) eqn:Hk; simpl.
  - exact Hk.
  - apply lookup_insert_eq.
Qed.

(** After one round the three defaults are there, and a second round
    changes nothing: the rounds of the loop all see the same options. *)
Lemma prepare_subprocess_kwargs_idem kwargs :
  _prepare_subprocess_kwargs (_prepare_subprocess_kwargs kwargs)
  = _prepare_subprocess_kwargs kwargs.
Proof.
  unfold _prepare_subprocess_kwargs.
  set (k1 := setdefault "text" (PyBool true) kwargs).
  set (k2 := setdefault "check" (PyBool true) k1).
  set (k3 := setdefault "capture_output" _ k2).
  assert (is_Some (k3 !! "text")) as H1.
  { subst k3 k2 k1. rewrite !lookup_setdefault_ne by discriminate.
    rewrite lookup_setdefault. eauto. }
  assert (is_Some (k3 !! "check")) as H2.
  { subst k3 k2. rewrite lookup_setdefault_ne by discriminate.
    rewrite lookup_setdefault. eauto. }
  assert (is_Some (k3 !! "capture_output")) as H3.
  { subst k3. rewrite lookup_setdefault. eauto. }
  rewrite (setdefault_present "text") by exact H1.
  rewrite (setdefault_present "check") by exact H2.
  rewrite (setdefault_present "capture_output") by exact H3.
  reflexivity.
Qed.

(** The check is on unless the caller gave a falsy [check]. *)
Lemma check_of_prepare kwargs :
  check_of (_prepare_subprocess_kwargs kwargs)
  = match kwargs !! "check" with Some v => truthy v | None => true end.
Proof.
  unfold check_of, _prepare_subprocess_kwargs.
  rewrite lookup_setdefault_ne by discriminate.
  rewrite lookup_setdefault.
  rewrite lookup_setdefault_ne by discriminate.
  destruct (kwargs !! "check"); reflexivity.
Qed.

Lemma trips_prepare w kwargs cmdline :
  trips w (_prepare_subprocess_kwargs kwargs) cmdline = trips w kwargs cmdline.
Proof. unfold trips. now rewrite prepare_subprocess_kwargs_idem. Qed.

End Kwargs.

(** ** Traces *)

Lemma emit_nil st : emit [] st = st.
Proof. destruct st. unfold emit. simpl. now rewrite app_nil_r. Qed.

Lemma emit_emit a b st : emit b (emit a st) = emit (a ++ b) st.
Proof. unfold emit. simpl. now rewrite app_assoc. Qed.

Lemma queries_app a b : queries (a ++ b) = (queries a ++ queries b)%list.
Proof.
  induction a as [|e a IH]; [reflexivity|].
  destruct e; simpl; now rewrite IH.
Qed.

Lemma ssh_invocations_app a b :
  ssh_invocations (a ++ b) = (ssh_invocations a ++ ssh_invocations b)%list.
Proof.
  induction a as [|e a IH]; [reflexivity|].
  destruct e; simpl; try exact IH.
  destruct (String.prefix "gcloud " cmd); simpl; now rewrite IH.
Qed.

Lemma queries_runs cmds : queries (map EvRun cmds) = [].
Proof. induction cmds; [reflexivity|exact IHcmds]. Qed.

Lemma ssh_invocations_runs cmds :
  Forall (fun c => String.prefix "gcloud " c = true) cmds ->
  ssh_invocations (map EvRun cmds) = cmds.
Proof.
  induction 1 as [|c cmds Hc _ IH]; [reflexivity|].
  simpl. now rewrite Hc, IH.
Qed.

Lemma subprocess_run_spec w cmdline kwargs st :
  subprocess_run w cmdline kwargs st
  = (if check_of kwargs && negb (exit_status w cmdline =? 0)%Z
     then Raise (CheckedExit (exit_status w cmdline) cmdline)
     else Ok (completed w cmdline),
     emit [EvRun cmdline] st).
Proof.
  unfold subprocess_run, bind, log, emit. simpl.
  destruct (check_of kwargs && negb (exit_status w cmdline =? 0)%Z); reflexivity.
Qed.

(** ** The loop over the slices *)

Section Loop.
Import TPUQRMJob.
Variables (w : World) (cfg : Config).
Variables (worker batch_size : pyval) (flags cmd : string).

Let line (s : string) : string := cmd_for_slice cfg s worker batch_size flags cmd.
Let loop := for_slices w cfg worker batch_size flags cmd.

(** One round of the loop, read with the vocabulary above. *)
Local Ltac round s kwargs :=
  unfold loop; cbn [app for_slices]; unfold bind at 1;
  rewrite subprocess_run_spec;
  change (cmd_for_slice cfg s worker batch_size flags cmd) with (line s);
  change (check_of (_prepare_subprocess_kwargs kwargs)
          && negb (exit_status w (line s) =? 0)%Z) with (trips w kwargs (line s));
  fold loop.

Lemma cmd_for_slice_is_gcloud s : String.prefix "gcloud " (line s) = true.
Proof. reflexivity. Qed.

Lemma ssh_invocations_lines ss :
  ssh_invocations (map EvRun (map line ss)) = map line ss.
Proof.
  apply ssh_invocations_runs, List.Forall_forall. intros c Hc.
  apply in_map_iff in Hc as (s & <- & _). apply cmd_for_slice_is_gcloud.
Qed.

(** When no command trips the check, every slice is run and every result
    is kept, in the order of the slices. *)
Lemma for_slices_passes ss : forall kwargs procs st,
  (forall s, In s ss -> trips w kwargs (line s) = false) ->
  loop ss kwargs procs st
  = (Ok (procs ++ map (completed w) (map line ss))%list,
     emit (map EvRun (map line ss)) st).
Proof.
  induction ss as [|s ss IH]; intros kwargs procs st H.
  - simpl. unfold ret. now rewrite app_nil_r, emit_nil.
  - round s kwargs. rewrite (H s) by now left.
    rewrite IH.
    + rewrite emit_emit. simpl. now rewrite <- app_assoc.
    + intros x Hx. rewrite trips_prepare. apply H. now right.
Qed.

(** The first command that trips the check ends the loop: the slices
    after it are not run and no result is returned. *)
Lemma for_slices_trips pre : forall s post kwargs procs st,
  (forall x, In x pre -> trips w kwargs (line x) = false) ->
  trips w kwargs (line s) = true ->
  loop (pre ++ s :: post) kwargs procs st
  = (Raise (CheckedExit (exit_status w (line s)) (line s)),
     emit (map EvRun (map line (pre ++ [s]))) st).
Proof.
  induction pre as [|p pre IH]; intros s post kwargs procs st Hpre Hs.
  - round s kwargs. now rewrite Hs.
  - round p kwargs. rewrite (Hpre p) by now left.
    rewrite IH.
    + now rewrite emit_emit.
    + intros x Hx. rewrite trips_prepare. apply Hpre. now right.
    + now rewrite trips_prepare.
Qed.

(** Whatever happens, what the loop leaves in the trace is the command
    lines of the first [k] slices, the first one included. *)
Lemma for_slices_trace ss : forall kwargs procs st,
  exists k, (ss <> [] -> 1 <= k)%nat /\
    snd (loop ss kwargs procs st) = emit (map EvRun (map line (firstn k ss))) st.
Proof.
  induction ss as [|s ss IH]; intros kwargs procs st.
  - exists 0%nat. split; [congruence|]. simpl. now rewrite emit_nil.
  - round s kwargs. destruct (trips w kwargs (line s)).
    + exists 1%nat. split; [lia|]. reflexivity.
    + destruct (IH (_prepare_subprocess_kwargs kwargs)
                   (procs ++ [completed w (line s)])%list
                   (emit [EvRun (line s)] st)) as (k & _ & Hk).
      exists (S k). split; [lia|]. rewrite Hk, emit_emit. reflexivity.
Qed.

End Loop.

(** ** The slices of a job *)

Lemma indexed_names_length nm n : length (indexed_names nm n) = Z.to_nat n.
Proof. unfold indexed_names. now rewrite length_map, length_seq. Qed.

Lemma indexed_names_nth nm n i :
  (i < Z.to_nat n)%nat ->
  nth_error (indexed_names nm n) i = Some (nm ++ "-" ++ str_of_Z (Z.of_nat i)).
Proof.
  intros Hi. unfold indexed_names.
  rewrite nth_error_map, nth_error_seq.
  apply Nat.ltb_lt in Hi. rewrite Hi. reflexivity.
Qed.


Lemma slices_nonempty cfg : TPUQRMJob.slices cfg <> [].
Proof.
  unfold TPUQRMJob.slices.
  destruct (Z.ltb_spec 1 (num_replicas (TPUQRMJob.accelerator cfg))) as [H|H]; [|discriminate].
  intros E. apply (f_equal (@length string)) in E.
  rewrite indexed_names_length in E. simpl in E. lia.
Qed.

(** ** The TPU dispatcher, step by step *)

Section Dispatcher.
Import TPUQRMJob Dispatch.
Variables (w : World) (cfg : Config) (home : string).

Let missing : exn := ValueError ("Expected TPU " ++ name (base cfg) ++ " to exist").

Lemma ensure_ssh_keys_spec st :
  exists evs, _ensure_ssh_keys w home st = (Ok tt, emit evs st)
              /\ queries evs = [] /\ ssh_invocations evs = [].
Proof.
  unfold _ensure_ssh_keys. unfold bind at 1.
  destruct (path_exists w _).
  - eexists. unfold log at 1. unfold bind. rewrite subprocess_run_spec.
    change (check_of _) with false. cbn [andb]. unfold ret.
    split; [|split].
    + unfold emit. simpl. rewrite <- app_assoc. reflexivity.
    + reflexivity.
    + reflexivity.
  - eexists. unfold ret at 1. unfold bind. rewrite subprocess_run_spec.
    change (check_of _) with false. cbn [andb]. unfold ret.
    split; [reflexivity|split; reflexivity].
Qed.

Lemma infer_iap_spec st :
  _infer_iap w cfg st =
  match _use_iap st with
  | Some b => (Ok b, st)
  | None =>
      let q found := EvLiveQuery (1 <? num_replicas (accelerator cfg))%Z (name (base cfg)) found in
      match node_of w cfg with
      | Some node =>
          (Ok (negb (has_public_ip node)),
           {| _use_iap := Some (negb (has_public_ip node)); trace := trace st ++ [q true] |})
      | None => (Raise missing, emit [q false] st)
      end
  end.
Proof.
  unfold _infer_iap, bind, get_use_iap.
  destruct (_use_iap st) as [b|] eqn:Hu; [reflexivity|].
  unfold query_node, bind, log, node_of. cbn [ret].
  destruct (1 <? num_replicas (accelerator cfg))%Z.
  - destruct (get_queued_tpu_node w _) as [node|]; [|reflexivity].
    destruct (has_public_ip node); reflexivity.
  - destruct (get_tpu_node w _) as [node|]; [|reflexivity].
    destruct (has_public_ip node); reflexivity.
Qed.

Lemma route_spec f st :
  exists evs u,
    route w cfg home f st
    = (match flags_of w cfg st f with Some fl => Ok fl | None => Raise missing end,
       {| _use_iap := u; trace := trace st ++ evs |})
    /\ ssh_invocations evs = [] /\ routed w cfg st u (queries evs).
Proof.
  unfold route, flags_of, routed.
  destruct (running_from_vm w).
  - destruct (ensure_ssh_keys_spec st) as (evs & He & Hq & Hs).
    exists evs, (_use_iap st). unfold bind. rewrite He. auto.
  - unfold bind. rewrite infer_iap_spec.
    destruct (_use_iap st) as [b|] eqn:Hu.
    + exists [], (Some b). rewrite app_nil_r.
      destruct st as [u t]. simpl in *. subst u.
      destruct b; auto.
    + destruct (node_of w cfg) as [node|].
      * destruct (has_public_ip node); cbn [negb];
          eexists [_], _; (split; [reflexivity|split; [reflexivity|eauto]]).
      * eexists [_], None. unfold emit. rewrite Hu. auto.
Qed.

Lemma detach_spec (c : Call) st :
  detach (detached_session c)
         ("sudo bash -c " ++ _prepare_cmd_for_gcloud_ssh ("pushd /root && " ++ cmd c)) st
  = (if session_fits c then Ok (remote_cmd c)
     else Raise (ValueError ("Screen name " ++ default EmptyString (session_of c)
                             ++ " is too long.")),
     st).
Proof.
  unfold detach, session_fits, remote_cmd, session_of.
  destruct (detached_session c) as [session|]; [|reflexivity].
  destruct (String.eqb session EmptyString); [reflexivity|]. cbn [negb].
  rewrite Nat.ltb_antisym.
  destruct (String.length session <=? 80)%nat; reflexivity.
Qed.

(** A call that is routed and whose session name fits comes down to the
    loop over the slices, run after the routing. *)
Lemma execute_remote_cmd_runs (c : Call) st fl :
  flags_of w cfg st (extra_ssh_flags c) = Some fl ->
  session_fits c = true ->
  exists evs u,
    ssh_invocations evs = [] /\ routed w cfg st u (queries evs) /\
    _execute_remote_cmd w cfg home c st
    = for_slices w cfg (worker c) (batch_size c) fl (remote_cmd c) (slices cfg) (kwargs c) []
        {| _use_iap := u; trace := trace st ++ evs |}.
Proof.
  intros Hfl Hfit.
  destruct (route_spec (extra_ssh_flags c) st) as (evs & u & Hr & Hs & Hq).
  exists evs, u. split; [exact Hs|split; [exact Hq|]].
  unfold _execute_remote_cmd. unfold bind at 1. rewrite Hr, Hfl.
  unfold bind at 1. rewrite detach_spec, Hfit. reflexivity.
Qed.

(** A call that is not routed, or whose session name does not fit, raises
    and runs no remote command. *)
Lemma execute_remote_cmd_refused (c : Call) st :
  flags_of w cfg st (extra_ssh_flags c) = None \/ session_fits c = false ->
  exists evs u msg,
    ssh_invocations evs = [] /\ routed w cfg st u (queries evs) /\
    _execute_remote_cmd w cfg home c st
    = (Raise (ValueError msg), {| _use_iap := u; trace := trace st ++ evs |}).
Proof.
  intros H.
  destruct (route_spec (extra_ssh_flags c) st) as (evs & u & Hr & Hs & Hq).
  exists evs, u.
  unfold _execute_remote_cmd. unfold bind at 1. rewrite Hr.
  destruct (flags_of w cfg st (extra_ssh_flags c)) as [fl|].
  - destruct H as [H|H]; [discriminate|].
    unfold bind at 1. rewrite detach_spec, H. eauto.
  - eexists. eauto.
Qed.

(** Whatever a call does, it goes through the routing once, and the gcloud
    invocations it makes are command lines of the first slices. *)
Lemma execute_remote_cmd_effects (c : Call) st :
  exists evs u,
    snd (_execute_remote_cmd w cfg home c st)
    = {| _use_iap := u; trace := trace st ++ evs |}
    /\ routed w cfg st u (queries evs)
    /\ match flags_of w cfg st (extra_ssh_flags c) with
       | Some fl =>
           exists k, ssh_invocations evs = firstn k (cmd_lines cfg c fl)
                     /\ (session_fits c = true -> 1 <= k)%nat
       | None => ssh_invocations evs = []
       end.
Proof.
  destruct (flags_of w cfg st (extra_ssh_flags c)) as [fl|] eqn:Hfl.
  - destruct (session_fits c) eqn:Hfit.
    + destruct (execute_remote_cmd_runs c st fl Hfl Hfit) as (evs & u & Hs & Hq & He).
      rewrite He.
      destruct (for_slices_trace w cfg (worker c) (batch_size c) fl (remote_cmd c)
                  (slices cfg) (kwargs c) [] {| _use_iap := u; trace := trace st ++ evs |})
        as (k & Hk1 & Hk).
      rewrite Hk. unfold emit. cbn [_use_iap trace].
      eexists (evs ++ _)%list, u. split; [now rewrite app_assoc|].
      rewrite queries_app, queries_runs, app_nil_r.
      split; [exact Hq|].
      exists k. rewrite ssh_invocations_app, Hs, ssh_invocations_lines. cbn [app].
      unfold cmd_lines. rewrite firstn_map. split; [reflexivity|].
      intros _. apply Hk1. apply slices_nonempty.
    + destruct (execute_remote_cmd_refused c st (or_intror Hfit))
        as (evs & u & msg & Hs & Hq & He).
      rewrite He. exists evs, u. split; [reflexivity|split; [exact Hq|]].
      exists 0%nat. rewrite Hs. split; [reflexivity|discriminate].
  - destruct (execute_remote_cmd_refused c st (or_introl Hfl))
      as (evs & u & msg & Hs & Hq & He).
    rewrite He. exists evs, u. auto.
Qed.

End Dispatcher.

(** ** Calls of the TPU dispatcher *)

Section Calls.
Import TPUQRMJob Dispatch.
Variables (w : World) (cfg : Config) (home : string).

(** X8. A checked command that exits non-zero ends the call: the call
    raises instead of returning a list of results, the gcloud invocations
    made are those of the slices up to that of the command, each with the
    text below, and the slices after it are not contacted. *)
Lemma checked_exit_aborts (c : Call) st fl pre s post :
  let line s :=
    "gcloud alpha compute -q tpus tpu-vm ssh " ++ s
    ++ " --project=" ++ project (base cfg)
    ++ " --zone=" ++ zone (base cfg)
    ++ " --worker=" ++ str (worker c)
    ++ " --batch-size=" ++ str (batch_size c)
    ++ " " ++ fl
    ++ " --command=" ++ String dquote (remote_cmd c ++ String dquote EmptyString) in
  flags_of w cfg st (extra_ssh_flags c) = Some fl ->
  session_fits c = true ->
  slices cfg = (pre ++ s :: post)%list ->
  (forall x, In x pre -> trips w (kwargs c) (line x) = false) ->
  trips w (kwargs c) (line s) = true ->
  exists e st' evs,
    _execute_remote_cmd w cfg home c st = (Raise e, st')
    /\ trace st' = (trace st ++ evs)%list
    /\ ssh_invocations evs = (map line pre ++ [line s])%list.
Proof.
  intros line Hfl Hfit Hss Hpre Hline.
  destruct (execute_remote_cmd_runs w cfg home c st fl Hfl Hfit) as (evs & u & Hs & _ & He).
  rewrite He, Hss, for_slices_trips; [|exact Hpre|exact Hline].
  eexists _, _, _. split; [reflexivity|]. unfold emit. cbn [trace].
  rewrite <- app_assoc. split; [reflexivity|].
  rewrite ssh_invocations_app, Hs, ssh_invocations_lines, map_app. reflexivity.
Qed.

(** A call in which no command trips the check runs every slice and
    returns every result. *)
Lemma execute_remote_cmd_passes (c : Call) st fl :
  flags_of w cfg st (extra_ssh_flags c) = Some fl ->
  session_fits c = true ->
  (forall line, In line (cmd_lines cfg c fl) -> trips w (kwargs c) line = false) ->
  exists st' evs,
    _execute_remote_cmd w cfg home c st
    = (Ok (map (completed w) (cmd_lines cfg c fl)), st')
    /\ trace st' = (trace st ++ evs)%list
    /\ ssh_invocations evs = cmd_lines cfg c fl.
Proof.
  intros Hfl Hfit Hpass.
  destruct (execute_remote_cmd_runs w cfg home c st fl Hfl Hfit) as (evs & u & Hs & _ & He).
  rewrite He, for_slices_passes.
  - eexists _, _. split; [reflexivity|]. unfold emit. cbn [trace].
    rewrite <- app_assoc. split; [reflexivity|].
    rewrite ssh_invocations_app, Hs, ssh_invocations_lines. reflexivity.
  - intros s Hs'. apply Hpass, List.in_map_iff. eexists. split; [reflexivity|exact Hs'].
Qed.

End Calls.

(** ** What the dispatchers guarantee *)

Section Guarantees.
Import TPUQRMJob Dispatch.

(** C1, amended. In a multi-slice dispatch that the caller runs with a
    falsy [check] option, which is routed and whose session name fits, a
    remote command that exits non-zero on one slice does not end the
    fan-out: every slice is contacted, and the call returns one result per
    slice, each with the exit status of its command, zero or not. (With the
    default options the check is on: see [checked_exit_aborts].) *)
Theorem unchecked_exits_are_collected w cfg home (c : Call) st fl v :
  kwargs c !! "check" = Some v ->
  truthy v = false ->
  flags_of w cfg st (extra_ssh_flags c) = Some fl ->
  session_fits c = true ->
  exists st' evs,
    _execute_remote_cmd w cfg home c st
    = (Ok (map (completed w) (cmd_lines cfg c fl)), st')
    /\ trace st' = (trace st ++ evs)%list
    /\ ssh_invocations evs = cmd_lines cfg c fl.
Proof.
  intros Hc Hv Hfl Hfit.
  apply execute_remote_cmd_passes; [exact Hfl|exact Hfit|].
  intros line _. unfold trips. now rewrite check_of_prepare, Hc, Hv.
Qed.


(** C9. A dispatch made from inside the cloud network makes no live query
    and leaves the cache of the instance as it was; every gcloud invocation
    it makes is the command line of a slice with the text below, in which
    the flag [--internal-ip] stands before the flags of the caller and
    nothing about tunnelling is added; and unless the session name is
    refused, it makes at least the invocation of the first slice. *)
Theorem from_vm_internal_ip_and_no_probe w cfg home (c : Call) st :
  running_from_vm w = true ->
  let command :=
    "sudo bash -c " ++ _prepare_cmd_for_gcloud_ssh ("pushd /root && " ++ cmd c) in
  let remote :=
    match session_of c with
    | Some session => "sudo screen -dmS " ++ session ++ " " ++ command
    | None => command
    end in
  let line s :=
    "gcloud alpha compute -q tpus tpu-vm ssh " ++ s
    ++ " --project=" ++ project (base cfg)
    ++ " --zone=" ++ zone (base cfg)
    ++ " --worker=" ++ str (worker c)
    ++ " --batch-size=" ++ str (batch_size c)
    ++ " --internal-ip " ++ extra_ssh_flags c
    ++ " --command=" ++ String dquote (remote ++ String dquote EmptyString) in
  exists evs k,
    snd (_execute_remote_cmd w cfg home c st)
    = {| _use_iap := _use_iap st; trace := trace st ++ evs |}
    /\ queries evs = []
    /\ ssh_invocations evs = firstn k (map line (slices cfg))
    /\ (session_fits c = true -> 1 <= k)%nat.
Proof.
  intros Hvm command remote line.
  destruct (execute_remote_cmd_effects w cfg home c st) as (evs & u & He & Hq & Hs).
  unfold routed in Hq. unfold flags_of in Hs. rewrite Hvm in Hq, Hs.
  destruct Hq as [-> Hq]. destruct Hs as (k & Hk & Hk1).
  exists evs, k. split; [exact He|]. split; [exact Hq|]. split; [exact Hk|exact Hk1].
Qed.

(** X13. A session name of 81 characters or more ends a TPU dispatch with
    [ValueError] before any gcloud invocation. *)
Lemma tpu_long_session_rejected w cfg home (c : Call) st session :
  detached_session c = Some session ->
  (81 <= String.length session)%nat ->
  exists msg st' evs,
    _execute_remote_cmd w cfg home c st = (Raise (ValueError msg), st')
    /\ trace st' = (trace st ++ evs)%list
    /\ ssh_invocations evs = [].
Proof.
  intros Hd Hlen.
  assert (session_fits c = false) as Hfit.
  { unfold session_fits, session_of. rewrite Hd.
    destruct session as [|a s]; [simpl in Hlen; lia|]. cbn [String.eqb].
    apply Nat.leb_gt. lia. }
  destruct (execute_remote_cmd_refused w cfg home c st (or_intror Hfit))
    as (evs & u & msg & Hs & _ & He).
  exists msg. eexists _, evs. split; [exact He|]. auto.
Qed.

(** X14. A session name of exactly 80 characters passes: a routed dispatch
    goes on to the slices, and every gcloud invocation it makes has the
    text below, whose command stands behind [sudo screen -dmS] and that
    name. *)
Lemma tpu_session_of_80_accepted w cfg home (c : Call) st session fl :
  detached_session c = Some session ->
  String.length session = 80%nat ->
  flags_of w cfg st (extra_ssh_flags c) = Some fl ->
  let remote :=
    "sudo screen -dmS " ++ session ++ " sudo bash -c "
    ++ _prepare_cmd_for_gcloud_ssh ("pushd /root && " ++ cmd c) in
  let line s :=
    "gcloud alpha compute -q tpus tpu-vm ssh " ++ s
    ++ " --project=" ++ project (base cfg)
    ++ " --zone=" ++ zone (base cfg)
    ++ " --worker=" ++ str (worker c)
    ++ " --batch-size=" ++ str (batch_size c)
    ++ " " ++ fl
    ++ " --command=" ++ String dquote (remote ++ String dquote EmptyString) in
  session_fits c = true /\
  exists evs k,
    trace (snd (_execute_remote_cmd w cfg home c st)) = (trace st ++ evs)%list
    /\ (1 <= k)%nat
    /\ ssh_invocations evs = firstn k (map line (slices cfg)).
Proof.
  intros Hd Hlen Hfl remote line.
  assert (session_of c = Some session) as Hsession.
  { unfold session_of. rewrite Hd.
    destruct session as [|a s]; [discriminate Hlen|reflexivity]. }
  assert (session_fits c = true) as Hfit.
  { unfold session_fits. rewrite Hsession. apply Nat.leb_le. lia. }
  split; [exact Hfit|].
  destruct (execute_remote_cmd_effects w cfg home c st) as (evs & u & He & _ & Hs).
  rewrite Hfl in Hs. destruct Hs as (k & Hk & Hk1).
  exists evs, k. rewrite He. split; [reflexivity|]. split; [auto|].
  rewrite Hk. unfold cmd_lines, remote_cmd. rewrite Hsession. reflexivity.
Qed.

(** C3. The CPU dispatcher has no check of the session name: with a name
    of 81 characters or more it is not stopped before the remote command
    but runs the gcloud command with the text below, in which the command
    stands behind [sudo screen -dmS] and that name. *)
Theorem cpu_long_session_is_run w cfg command session kwargs st :
  (81 <= String.length session)%nat ->
  let remote :=
    "sudo screen -dmS " ++ session ++ " sudo -i bash -c "
    ++ _prepare_cmd_for_gcloud_ssh ("pushd /root && " ++ command) in
  let line :=
    "gcloud compute -q ssh " ++ name cfg
    ++ " --project=" ++ project cfg
    ++ " --zone=" ++ zone cfg
    ++ " --command=" ++ String dquote (remote ++ String dquote EmptyString) in
  exists r,
    CPUJob._execute_remote_cmd w cfg command (Some session) kwargs st
    = (r, emit [EvRun line] st)
    /\ ssh_invocations [EvRun line] = [line].
Proof.
  intros Hlen remote line.
  unfold CPUJob._execute_remote_cmd.
  destruct session as [|a s]; [simpl in Hlen; lia|].
  cbn [String.eqb negb].
  unfold bind. rewrite subprocess_run_spec.
  destruct (check_of _ && _); eexists; split; reflexivity.
Qed.

End Guarantees.

(** ** The cache of the routing decision *)

Section Memo.
Import TPUQRMJob Dispatch.
Variables (cfg : Config) (home : string).

(** One call keeps the shape of the live queries of an instance: failed
    queries while the cache is empty, then the one that fills it. *)
Lemma execute_remote_cmd_queries w (c : Call) st k :
  (_use_iap st = None /\ queries (trace st) = repeat false k) \/
  (is_Some (_use_iap st) /\ queries (trace st) = (repeat false k ++ [true])%list) ->
  exists k',
    let st' := snd (_execute_remote_cmd w cfg home c st) in
    (_use_iap st' = None /\ queries (trace st') = repeat false k') \/
    (is_Some (_use_iap st') /\ queries (trace st') = (repeat false k' ++ [true])%list).
Proof.
  intros Inv.
  destruct (execute_remote_cmd_effects w cfg home c st) as (evs & u & He & Hq & _).
  cbn zeta. rewrite He. cbn [_use_iap trace]. rewrite queries_app.
  unfold routed in Hq.
  destruct (running_from_vm w).
  - destruct Hq as [-> ->]. exists k. now rewrite app_nil_r.
  - destruct Inv as [[Hu Hqs]|[Hu Hqs]].
    + rewrite Hu in Hq. destruct (node_of w cfg).
      * destruct Hq as [Hsome ->]. exists k. right. now rewrite Hqs.
      * destruct Hq as [-> ->]. exists (S k). left. split; [reflexivity|].
        rewrite Hqs. symmetry. apply repeat_cons.
    + destruct Hu as [b Hu]. rewrite Hu in Hq. destruct Hq as [-> ->].
      exists k. right. rewrite app_nil_r. eauto.
Qed.

Lemma run_calls_queries calls : forall st k,
  (_use_iap st = None /\ queries (trace st) = repeat false k) \/
  (is_Some (_use_iap st) /\ queries (trace st) = (repeat false k ++ [true])%list) ->
  exists k',
    let st' := run_calls cfg home calls st in
    (_use_iap st' = None /\ queries (trace st') = repeat false k') \/
    (is_Some (_use_iap st') /\ queries (trace st') = (repeat false k' ++ [true])%list).
Proof.
  induction calls as [|[w c] calls IH]; intros st k Inv.
  - exists k. exact Inv.
  - cbn [run_calls].
    destruct (execute_remote_cmd_queries w c st k Inv) as (k1 & Inv1).
    exact (IH _ k1 Inv1).
Qed.

(** X12. Once the cache is filled, no later call of the instance makes a
    live query or changes the cached decision, whatever the worlds the
    calls run in (the node gone, or with another address). *)
Lemma resolved_never_queries_again calls : forall st,
  is_Some (_use_iap st) ->
  queries (trace (run_calls cfg home calls st)) = queries (trace st)
  /\ _use_iap (run_calls cfg home calls st) = _use_iap st.
Proof.
  induction calls as [|[w c] calls IH]; intros st Hu; [auto|].
  cbn [run_calls].
  destruct (execute_remote_cmd_effects w cfg home c st) as (evs & u & He & Hq & _).
  assert (u = _use_iap st /\ queries evs = []) as [-> Hnone].
  { unfold routed in Hq. destruct Hu as [b Hu]. rewrite Hu in *.
    destruct (running_from_vm w); destruct Hq; auto. }
  rewrite He. destruct (IH {| _use_iap := _use_iap st; trace := trace st ++ evs |} Hu) as [H1 H2].
  rewrite H1, H2. cbn [_use_iap trace]. rewrite queries_app, Hnone, app_nil_r. auto.
Qed.

(** C8, amended. Over any sequence of dispatch calls of one job instance,
    whatever the worlds they run in, the live queries are a run of queries
    that did not find the node, each of which raised and left the cache
    empty, followed by at most one query that found it: after the query
    that resolves the routing, none is made again. *)
Theorem reachability_resolved_at_most_once calls :
  exists k,
    let qs := queries (trace (run_calls cfg home calls init)) in
    qs = repeat false k \/ qs = (repeat false k ++ [true])%list.
Proof.
  destruct (run_calls_queries calls init 0) as (k & Hk).
  - left. split; reflexivity.
  - exists k. cbn zeta in *. destruct Hk as [[_ H]|[_ H]]; auto.
Qed.

End Memo.

(** ** The dispatchers on sample calls *)

Section Samples.
Import TPUQRMJob Dispatch Sample.

(** Outside the cloud network, the node has a public address. *)
Let outside (failing : string) : World :=
  world false (Some (node (Some "34.1.2.3"))) None failing.

Let slice_cmd (n : Z) (s : string) : string :=
  cmd_for_slice (tpu n) s (PyStr "all") (PyInt 100) EmptyString (remote_cmd (call "echo hi")).

(** C1, as stated, fails: with the options the dispatcher sets by default,
    slice job-0 of two exiting with status 1 ends the call with the
    exception of the checked exit; no result is returned and job-1 is
    never contacted. *)
Lemma default_check_aborts_fan_out :
  let out := _execute_remote_cmd (outside (slice_cmd 2 "job-0")) (tpu 2) home
               (call "echo hi") init in
  fst out = Raise (CheckedExit 1 (slice_cmd 2 "job-0"))
  /\ ssh_invocations (trace (snd out)) = [slice_cmd 2 "job-0"].
Proof. vm_compute. split; reflexivity. Qed.

Lemma unchecked_exits_are_collected_witness :
  let w := outside (slice_cmd 2 "job-0") in
  let c := {| cmd := "echo hi"; worker := PyStr "all"; detached_session := None;
              batch_size := PyInt 100; extra_ssh_flags := EmptyString;
              kwargs := {["check" := PyBool false]} |} in
  exists st' evs,
    _execute_remote_cmd w (tpu 2) home c init
    = (Ok (map (completed w) (cmd_lines (tpu 2) c EmptyString)), st')
    /\ trace st' = (trace init ++ evs)%list
    /\ ssh_invocations evs = cmd_lines (tpu 2) c EmptyString.
Proof.
  intros w c.
  apply (unchecked_exits_are_collected w (tpu 2) home c init EmptyString (PyBool false));
    reflexivity.
Defined.

(** The exit statuses of that call: 1 for job-0, 0 for job-1. *)
Example unchecked_exit_statuses :
  let w := outside (slice_cmd 2 "job-0") in
  let c := {| cmd := "echo hi"; worker := PyStr "all"; detached_session := None;
              batch_size := PyInt 100; extra_ssh_flags := EmptyString;
              kwargs := {["check" := PyBool false]} |} in
  option_map (map returncode)
    (match fst (_execute_remote_cmd w (tpu 2) home c init) with
     | Ok procs => Some procs
     | Raise _ => None
     end) = Some [1%Z; 0%Z].
Proof. vm_compute. reflexivity. Qed.



(** A single slice goes by the bare name of the job. *)
Example single_slice_bare_name : slices (tpu 1) = ["job"].
Proof. reflexivity. Qed.

Lemma from_vm_internal_ip_and_no_probe_witness :
  let w := world true None None "never" in
  let line s :=
    "gcloud alpha compute -q tpus tpu-vm ssh " ++ s
    ++ " --project=proj --zone=us-central2-b --worker=all --batch-size=100"
    ++ " --internal-ip  --command="
    ++ String dquote ("sudo bash -c 'pushd /root && echo hi'" ++ String dquote EmptyString) in
  exists evs k,
    snd (_execute_remote_cmd w (tpu 2) home (call "echo hi") init)
    = {| _use_iap := None; trace := [] ++ evs |}
    /\ queries evs = []
    /\ ssh_invocations evs = firstn k (map line ["job-0"; "job-1"])
    /\ (true = true -> 1 <= k)%nat.
Proof.
  intros w line.
  exact (from_vm_internal_ip_and_no_probe w (tpu 2) home (call "echo hi") init eq_refl).
Defined.

Lemma cpu_long_session_is_run_witness :
  let w := outside "never" in
  let line :=
    "gcloud compute -q ssh job --project=proj --zone=us-central2-b --command="
    ++ String dquote
         (("sudo screen -dmS " ++ session 81 ++ " sudo -i bash -c 'pushd /root && echo hi'")
          ++ String dquote EmptyString) in
  exists r,
    CPUJob._execute_remote_cmd w job "echo hi" (Some (session 81)) ∅ init
    = (r, emit [EvRun line] init)
    /\ ssh_invocations [EvRun line] = [line].
Proof.
  intros w line.
  refine (cpu_long_session_is_run w job "echo hi" (session 81) ∅ init _).
  vm_compute. lia.
Defined.

(** The same name ends the TPU dispatch before any remote command. *)
Example tpu_session_of_81 :
  let c := {| cmd := "echo hi"; worker := PyStr "all";
              detached_session := Some (session 81);
              batch_size := PyInt 100; extra_ssh_flags := EmptyString; kwargs := ∅ |} in
  let out := _execute_remote_cmd (outside "never") (tpu 2) home c init in
  is_ok (fst out) = false /\ ssh_invocations (trace (snd out)) = [].
Proof. vm_compute. split; reflexivity. Qed.

(** C8, as stated, fails: while the node does not exist every call of the
    instance queries again, the cache staying empty. *)
Lemma missing_node_is_queried_again :
  let w := world false None None "never" in
  let st := run_calls (tpu 1) home [(w, call "echo hi"); (w, call "echo hi")] init in
  queries (trace st) = [false; false] /\ _use_iap st = None.
Proof. vm_compute. split; reflexivity. Qed.

(** Once the node is found, a second call makes no query. *)
Example found_node_is_queried_once :
  let w := world false (Some (node None)) None "never" in
  let st := run_calls (tpu 1) home [(w, call "echo hi"); (w, call "echo hi")] init in
  queries (trace st) = [true] /\ _use_iap st = Some true.
Proof. vm_compute. split; reflexivity. Qed.

End Samples.

(** ** The manifest builder *)

Section Manifest.
Import TPUGKEJob.
Variable table : gmap string SystemCharacteristics.
Variable infer : string -> result string.
Variable checks : Urllib.Checks.

(** What [__init__] leaves: the configuration it was given and a TPU type
    that has a row in the table. *)
Lemma init_spec cfg self :
  __init__ table infer cfg = Ok self ->
  config self = cfg
  /\ infer (instance_type (accelerator cfg)) = Ok (_tpu_type self)
  /\ _gcsfuse_volume self = "gcs-fuse-csi-ephemeral"
  /\ exists system, table !! _tpu_type self = Some system.
Proof.
  unfold __init__. destruct (negb _); [discriminate|].
  destruct (infer _) as [tpu_type|e]; [|discriminate]. cbn [rbind].
  destruct (table !! tpu_type) as [system|] eqn:Hrow; [|discriminate].
  intros [= <-]. cbn. eauto.
Qed.

Lemma system_of_row self system :
  table !! _tpu_type self = Some system -> system_of table self = Ok system.
Proof. intros H. unfold system_of. now rewrite H. Qed.

(** A build that returned a pod: the pieces it was made of. *)
Lemma build_job_inv w self system job :
  table !! _tpu_type self = Some system ->
  _build_job table checks w self = Ok job ->
  exists pod,
    _build_pod table checks w self = Ok pod /\
    job = TDict [("spec", TDict [("parallelism", TInt (vms_per_slice system));
                                 ("completions", TInt (vms_per_slice system));
                                 ("backoffLimit", TInt 0);
                                 ("template", pod)])].
Proof.
  intros H. unfold _build_job. rewrite (system_of_row _ _ H). cbn [rbind].
  destruct (_build_pod table checks w self) as [pod|e]; [|discriminate].
  cbn [rbind]. intros [= <-]. eauto.
Qed.

(** The pod is built exactly when the path of the mount, if there is one,
    is parsed; if not, the error of [urlparse] is the error of the build. *)
Lemma build_pod_returns w self system :
  table !! _tpu_type self = Some system ->
  match gcsfuse_mount (config self) with
  | Some m =>
      match Urllib.urlparse checks (gcs_path m) with
      | Ok _ => exists pod, _build_pod table checks w self = Ok pod
      | Raise e => _build_pod table checks w self = Raise e
      end
  | None => exists pod, _build_pod table checks w self = Ok pod
  end.
Proof.
  intros H. unfold _build_pod, _build_container.
  rewrite (system_of_row _ _ H). cbn [rbind].
  destruct (gcsfuse_mount (config self)) as [m|]; [|cbn [rbind]; eauto].
  destruct (Urllib.urlparse checks (gcs_path m)) as [parsed|e]; cbn [rbind]; eauto.
Qed.

(** C4. For max_tries >= 1 and num_replicas >= 1, a JobSet that was built
    for a job that [__init__] accepted has failurePolicy.maxRestarts =
    max_tries - 1 and exactly one replicated job, with replicas =
    num_replicas; the job under it has parallelism and completions equal
    to the hosts per slice of the TPU type of the job, and backoffLimit
    0. *)
Theorem jobset_retries_and_replicas w cfg self jobset :
  __init__ table infer cfg = Ok self ->
  (1 <= max_tries (base cfg))%Z ->
  (1 <= num_replicas (accelerator cfg))%Z ->
  _build_jobset table checks w self = Ok jobset ->
  exists system replicated job,
    infer (instance_type (accelerator cfg)) = Ok (_tpu_type self)
    /\ table !! _tpu_type self = Some system
    /\ at_path ["spec"; "failurePolicy"; "maxRestarts"] jobset
       = Some (TInt (max_tries (base cfg) - 1))
    /\ at_path ["spec"; "replicatedJobs"] jobset = Some (TList [replicated])
    /\ field "replicas" replicated = Some (TInt (num_replicas (accelerator cfg)))
    /\ field "template" replicated = Some job
    /\ at_path ["spec"; "parallelism"] job = Some (TInt (vms_per_slice system))
    /\ at_path ["spec"; "completions"] job = Some (TInt (vms_per_slice system))
    /\ at_path ["spec"; "backoffLimit"] job = Some (TInt 0).
Proof.
  intros Hinit _ _.
  destruct (init_spec cfg self Hinit) as (Hcfg & Hinfer & _ & system & Hrow).
  unfold _build_jobset.
  destruct (_build_job table checks w self) as [job|e] eqn:Hjob; [|discriminate].
  destruct (build_job_inv w self system job Hrow Hjob) as (pod & _ & ->).
  rewrite Hcfg. cbn [rbind]. intros [= <-].
  eexists system, _, _.
  split; [exact Hinfer|]. split; [exact Hrow|]. repeat split.
Qed.

(** C5. In a pod that was built for a job that [__init__] accepted, the
    node selector has the key of the reservation name exactly when the
    variable BASTION_TIER of the environment is 0 and the reservation of
    the configuration is set (neither absent nor empty), with that
    reservation as its value; it has the spot key exactly when not; so it
    never has both. *)
Theorem node_selector_reservation_or_spot w cfg self pod :
  __init__ table infer cfg = Ok self ->
  _build_pod table checks w self = Ok pod ->
  let reserved :=
    bool_decide (environ w !! "BASTION_TIER" = Some "0") && opt_truthy (reservation cfg) in
  exists selector,
    at_path ["spec"; "nodeSelector"] pod = Some (TDict selector)
    /\ Dict.mem "cloud.google.com/reservation-name" selector = reserved
    /\ Dict.mem "cloud.google.com/gke-spot" selector = negb reserved
    /\ (reserved = true ->
        Dict.get "cloud.google.com/reservation-name" selector
        = Some (opt_str (reservation cfg))).
Proof.
  intros Hinit Hpod reserved. revert Hpod.
  destruct (init_spec cfg self Hinit) as (Hcfg & _ & _ & system & Hrow).
  unfold _build_pod, _build_container.
  rewrite (system_of_row _ _ Hrow), Hcfg. cbn [rbind].
  fold reserved.
  destruct (gcsfuse_mount cfg) as [m|];
    [destruct (Urllib.urlparse checks (gcs_path m)) as [parsed|e]; [|discriminate]|];
    cbn [rbind]; intros [= <-]; destruct reserved;
    (eexists; split; [reflexivity|]; repeat split; discriminate).
Qed.

(** C6. For a job that [__init__] accepted: with a GCS FUSE mount of path
    gs://bucket-a/prefix/sub the pod is built and its volumes are one CSI
    volume of the gcsfuse driver with bucketName bucket-a and mountOptions
    only-dir=prefix/sub; with no mount the pod is built with no volume and
    no annotation. *)
Theorem gcsfuse_volume_bucket_and_prefix w cfg self :
  __init__ table infer cfg = Ok self ->
  match gcsfuse_mount cfg with
  | Some m =>
      gcs_path m = "gs://bucket-a/prefix/sub" ->
      exists pod volume,
        _build_pod table checks w self = Ok pod
        /\ at_path ["spec"; "volumes"] pod = Some (TList [volume])
        /\ field "name" volume = Some (TStr "gcs-fuse-csi-ephemeral")
        /\ at_path ["csi"; "driver"] volume = Some (TStr "gcsfuse.csi.storage.gke.io")
        /\ at_path ["csi"; "volumeAttributes"; "bucketName"] volume
           = Some (TStr "bucket-a")
        /\ at_path ["csi"; "volumeAttributes"; "mountOptions"] volume
           = Some (TStr "only-dir=prefix/sub")
        /\ at_path ["metadata"; "annotations"; "gke-gcsfuse/volumes"] pod
           = Some (TStr "true")
  | None =>
      exists pod,
        _build_pod table checks w self = Ok pod
        /\ at_path ["spec"; "volumes"] pod = Some (TList [])
        /\ at_path ["metadata"; "annotations"] pod = Some (TDict [])
  end.
Proof.
  intros Hinit.
  destruct (init_spec cfg self Hinit) as (Hcfg & _ & Hvol & system & Hrow).
  unfold _build_pod, _build_container.
  rewrite (system_of_row _ _ Hrow), Hcfg, Hvol. cbn [rbind].
  destruct (gcsfuse_mount cfg) as [m|].
  - intros Hpath. rewrite Hpath.
    change (Urllib.urlparse checks "gs://bucket-a/prefix/sub")
      with (Ok {| Urllib.scheme := "gs"; Urllib.netloc := "bucket-a";
                  Urllib.path := "/prefix/sub"; Urllib.params := EmptyString;
                  Urllib.query := EmptyString; Urllib.fragment := EmptyString |}).
    cbn [rbind]. eexists _, _. split; [reflexivity|]. repeat split.
  - cbn [rbind]. eexists. split; [reflexivity|]. split; reflexivity.
Qed.

(** C7, amended. The manifest is a function of the job, of the table and
    of one fact about the world: whether the variable BASTION_TIER of the
    environment is 0. Two compilations of the same job in worlds that
    agree on that fact give the same manifest, whatever else differs. *)
Theorem manifest_depends_on_tier_only w1 w2 self :
  (environ w1 !! "BASTION_TIER" = Some "0" <-> environ w2 !! "BASTION_TIER" = Some "0") ->
  _build_jobset table checks w1 self = _build_jobset table checks w2 self.
Proof.
  intros Htier.
  unfold _build_jobset, _build_job, _build_pod.
  now rewrite (bool_decide_ext _ _ Htier).
Qed.

End Manifest.

(** ** The manifest of sample jobs *)

Section ManifestSamples.
Import TPUGKEJob Sample.

Let quiet (from_vm : bool) (tier : option string) : World := world from_vm None tier "never".

(** The scenario of four replicas and three tries: two restarts, four
    replicas, two pods per job (the hosts of a v4-16 slice). *)
Lemma jobset_retries_and_replicas_witness :
  exists jobset system replicated job,
    _build_jobset table checks (quiet false None) (gke_job 4 None None) = Ok jobset
    /\ infer "tpu-v4-16" = Ok "v4-16"
    /\ table !! "v4-16" = Some system
    /\ at_path ["spec"; "failurePolicy"; "maxRestarts"] jobset = Some (TInt 2)
    /\ at_path ["spec"; "replicatedJobs"] jobset = Some (TList [replicated])
    /\ field "replicas" replicated = Some (TInt 4)
    /\ field "template" replicated = Some job
    /\ at_path ["spec"; "parallelism"] job = Some (TInt (vms_per_slice system))
    /\ at_path ["spec"; "completions"] job = Some (TInt (vms_per_slice system))
    /\ at_path ["spec"; "backoffLimit"] job = Some (TInt 0).
Proof.
  destruct (_build_jobset table checks (quiet false None) (gke_job 4 None None))
    as [jobset|e] eqn:Hbuilt; [|vm_compute in Hbuilt; discriminate Hbuilt].
  destruct (jobset_retries_and_replicas table infer checks (quiet false None)
              (gke 4 None None) (gke_job 4 None None) jobset)
    as (system & replicated & job & H).
  - vm_compute. reflexivity.
  - cbn. lia.
  - cbn. lia.
  - exact Hbuilt.
  - exists jobset, system, replicated, job. split; [reflexivity|exact H].
Defined.

Lemma node_selector_reservation_or_spot_witness :
  exists pod selector,
    _build_pod table checks (quiet false (Some "0")) (gke_job 1 (Some "res-1") None) = Ok pod
    /\ at_path ["spec"; "nodeSelector"] pod = Some (TDict selector)
    /\ Dict.mem "cloud.google.com/reservation-name" selector = true
    /\ Dict.mem "cloud.google.com/gke-spot" selector = false
    /\ (true = true ->
        Dict.get "cloud.google.com/reservation-name" selector = Some (TStr "res-1")).
Proof.
  destruct (_build_pod table checks (quiet false (Some "0")) (gke_job 1 (Some "res-1") None))
    as [pod|e] eqn:Hbuilt; [|vm_compute in Hbuilt; discriminate Hbuilt].
  destruct (node_selector_reservation_or_spot table infer checks (quiet false (Some "0"))
              (gke 1 (Some "res-1") None) (gke_job 1 (Some "res-1") None) pod)
    as (selector & H).
  - vm_compute. reflexivity.
  - exact Hbuilt.
  - exists pod, selector. split; [reflexivity|exact H].
Defined.

(** Without the tier, or without a reservation, the selector is the spot
    key. *)
Example node_selector_spot :
  forall tier reservation,
    (tier, reservation) = (None, Some "res-1") \/ (tier, reservation) = (Some "1", Some "res-1")
    \/ (tier, reservation) = (Some "0", None) \/ (tier, reservation) = (Some "0", Some EmptyString) ->
    option_map (at_path ["spec"; "nodeSelector"])
      (match _build_pod table checks (quiet false tier) (gke_job 1 reservation None) with
       | Ok pod => Some pod
       | Raise _ => None
       end)
    = Some (Some (TDict [("cloud.google.com/gke-tpu-accelerator", TStr "tpu-v4-podslice");
                         ("cloud.google.com/gke-tpu-topology", TStr "2x2x2");
                         ("provisioner-nodepool-id", TStr "job");
                         ("cloud.google.com/gke-spot", TStr "true")])).
Proof.
  intros tier reservation [H|[H|[H|H]]]; injection H as -> ->; vm_compute; reflexivity.
Qed.

Lemma gcsfuse_volume_bucket_and_prefix_witness :
  exists pod volume,
    _build_pod table checks (quiet false None)
      (gke_job 1 None (Some (gcsfuse_mount_of "gs://bucket-a/prefix/sub"))) = Ok pod
    /\ at_path ["spec"; "volumes"] pod = Some (TList [volume])
    /\ field "name" volume = Some (TStr "gcs-fuse-csi-ephemeral")
    /\ at_path ["csi"; "driver"] volume = Some (TStr "gcsfuse.csi.storage.gke.io")
    /\ at_path ["csi"; "volumeAttributes"; "bucketName"] volume
       = Some (TStr "bucket-a")
    /\ at_path ["csi"; "volumeAttributes"; "mountOptions"] volume
       = Some (TStr "only-dir=prefix/sub")
    /\ at_path ["metadata"; "annotations"; "gke-gcsfuse/volumes"] pod
       = Some (TStr "true").
Proof.
  refine (gcsfuse_volume_bucket_and_prefix table infer checks (quiet false None)
            (gke 1 None (Some (gcsfuse_mount_of "gs://bucket-a/prefix/sub")))
            (gke_job 1 None (Some (gcsfuse_mount_of "gs://bucket-a/prefix/sub"))) _ _).
  - vm_compute. reflexivity.
  - reflexivity.
Defined.

(** The selector of a pod as a list of keys. *)
Let selector_keys (r : result tree) : list string :=
  match r with
  | Ok jobset =>
      match at_path ["spec"; "replicatedJobs"] jobset with
      | Some (TList [replicated]) =>
          match at_path ["template"; "spec"; "template"; "spec"; "nodeSelector"] replicated with
          | Some (TDict selector) => map fst selector
          | _ => []
          end
      | _ => []
      end
  | Raise _ => []
  end.

(** C7, as stated, fails: the same job, table and configuration compiled
    in two worlds that differ in the variable BASTION_TIER give two
    manifests, one on the reservation and one on spot nodes. *)
Lemma manifest_reads_the_environment :
  let self := gke_job 1 (Some "res-1") None in
  _build_jobset table checks (quiet false (Some "0")) self
  <> _build_jobset table checks (quiet false None) self.
Proof.
  intros self H. apply (f_equal selector_keys) in H.
  vm_compute in H. discriminate H.
Qed.

Lemma manifest_depends_on_tier_only_witness :
  _build_jobset table checks (quiet true (Some "1")) (gke_job 1 (Some "res-1") None)
  = _build_jobset table checks (quiet false None) (gke_job 1 (Some "res-1") None).
Proof.
  apply (manifest_depends_on_tier_only table checks (quiet true (Some "1")) (quiet false None)).
  split; intros H; vm_compute in H; discriminate H.
Defined.

End ManifestSamples.

(** ** The escaper on a command with an escaped quote *)

(** C10. The command [pushd /root && echo \"hi\"], in which two double
    quotes stand behind a backslash: after the escaping every double quote
    and every dollar still has a backslash just before it, but the
    backslash before each double quote is the one the escaping put there,
    behind the backslash of the command; read between the double quotes of
    [--command], the two backslashes are one escaped backslash and the
    double quote after them ends the argument. *)
Theorem escaped_quote_ends_the_argument :
  let cmd := "pushd /root && echo " ++ backslashed dquote ++ "hi" ++ backslashed dquote in
  let out := _prepare_cmd_for_gcloud_ssh cmd in
  out = String squote ("pushd /root && echo " ++ String backslash (backslashed dquote)
                       ++ "hi" ++ String backslash (backslashed dquote)
                       ++ String squote EmptyString)
  /\ always_escaped dquote out = true
  /\ always_escaped dollar out = true
  /\ closes_dquote out = true.
Proof. vm_compute. repeat split; reflexivity. Qed.

(** * More properties of the code *)

(** ** The escaper, read back *)

Section EscaperReadBack.

Lemma quote_keeps_char_free (c : ascii) (s : string) :
  c <> squote -> c <> dquote ->
  mem_char c s = false -> mem_char c (Shlex.quote s) = false.
Proof.
  intros Hs Hd H.
  assert (Ascii.eqb squote c = false) as Hsc by (apply Ascii.eqb_neq; congruence).
  assert (Ascii.eqb dquote c = false) as Hdc by (apply Ascii.eqb_neq; congruence).
  unfold Shlex.quote. destruct s as [|a rest].
  - cbn [mem_char]. now rewrite Hsc.
  - destruct (Shlex.all_safe (String a rest)); [exact H|].
    cbn [mem_char]. rewrite Hsc, mem_char_app. cbn [orb].
    rewrite mem_char_replace; [cbn [mem_char]; now rewrite Hsc| |exact H].
    unfold Shlex.squote_escape. cbn [mem_char]. now rewrite Hsc, Hdc.
Qed.

Lemma dquote_read_escaped (s : string) :
  mem_char backslash s = false -> mem_char backquote s = false ->
  dquote_read
    (replace_char dollar (backslashed dollar) (replace_char dquote (backslashed dquote) s))
  = Some s.
Proof.
  induction s as [|a rest IH]; intros Hb Hq; [reflexivity|].
  cbn [mem_char] in Hb, Hq.
  apply orb_false_iff in Hb as [Hb1 Hb2]. apply orb_false_iff in Hq as [Hq1 Hq2].
  specialize (IH Hb2 Hq2).
  cbn [replace_char]. destruct (Ascii.eqb a dquote) eqn:Hd.
  - apply Ascii.eqb_eq in Hd. subst a.
    cbn [backslashed append replace_char].
    change (Ascii.eqb backslash dollar) with false.
    change (Ascii.eqb dquote dollar) with false.
    cbn [dquote_read]. rewrite Ascii.eqb_refl.
    change (Ascii.eqb dquote dollar) with false.
    change (Ascii.eqb dquote backquote) with false.
    rewrite Ascii.eqb_refl. cbn [orb]. now rewrite IH.
  - cbn [replace_char]. destruct (Ascii.eqb a dollar) eqn:Hdl.
    + apply Ascii.eqb_eq in Hdl. subst a.
      cbn [backslashed append dquote_read]. rewrite !Ascii.eqb_refl. cbn [orb].
      now rewrite IH.
    + cbn [dquote_read]. rewrite Hb1, Hd, Hdl, Hq1. cbn [orb]. now rewrite IH.
Qed.

(** X3. For a command with no backslash and no backquote in it, the two
    replacements of the escaper are undone by the shell that reads the
    double-quoted [--command] argument: what the remote side receives is
    the command as [shlex.quote] quoted it. *)
Theorem prepare_cmd_read_back (cmd : string) :
  mem_char backslash cmd = false ->
  mem_char backquote cmd = false ->
  dquote_read (_prepare_cmd_for_gcloud_ssh cmd) = Some (Shlex.quote cmd).
Proof.
  intros Hb Hq. unfold _prepare_cmd_for_gcloud_ssh.
  apply dquote_read_escaped; apply quote_keeps_char_free; try discriminate; assumption.
Qed.

Lemma prepare_cmd_read_back_witness :
  dquote_read (_prepare_cmd_for_gcloud_ssh "echo $HOME; echo 'it'")
  = Some (Shlex.quote "echo $HOME; echo 'it'").
Proof. apply prepare_cmd_read_back; reflexivity. Defined.

Lemma replace_char_absent (c : ascii) (new s : string) :
  mem_char c s = false -> replace_char c new s = s.
Proof.
  induction s as [|a rest IH]; intros H; [reflexivity|].
  cbn [mem_char] in H. apply orb_false_iff in H as [H1 H2].
  cbn [replace_char]. now rewrite H1, IH.
Qed.

Lemma forall_chars_excludes (p : ascii -> bool) (c : ascii) (s : string) :
  p c = false -> forall_chars p s = true -> mem_char c s = false.
Proof.
  intros Hc. induction s as [|a rest IH]; intros H; [reflexivity|].
  cbn [forall_chars] in H. apply andb_true_iff in H as [H1 H2].
  cbn [mem_char]. rewrite (IH H2), orb_false_r.
  destruct (Ascii.eqb_spec a c) as [->|_]; [congruence|reflexivity].
Qed.

(** X4. A command made of safe characters only (letters, digits and
    [_@%+=:,./-]) passes the escaper unchanged; the empty command becomes a
    pair of single quotes. *)
Theorem prepare_cmd_safe_unchanged (cmd : string) :
  Shlex.all_safe cmd = true ->
  _prepare_cmd_for_gcloud_ssh cmd
  = match cmd with
    | EmptyString => String squote (String squote EmptyString)
    | _ => cmd
    end.
Proof.
  intros Hsafe. unfold _prepare_cmd_for_gcloud_ssh, Shlex.quote.
  destruct cmd as [|a rest]; [reflexivity|].
  rewrite Hsafe.
  rewrite (replace_char_absent dquote), (replace_char_absent dollar); [reflexivity| |].
  - now apply (forall_chars_excludes Shlex.safe_char).
  - now apply (forall_chars_excludes Shlex.safe_char).
Qed.

Lemma prepare_cmd_safe_unchanged_witness :
  _prepare_cmd_for_gcloud_ssh "/usr/bin/env" = "/usr/bin/env".
Proof. apply (prepare_cmd_safe_unchanged "/usr/bin/env"). reflexivity. Defined.

Lemma prepare_cmd_safe_without_backslash_witness :
  closes_dquote (_prepare_cmd_for_gcloud_ssh "echo $HOME; echo 'it'") = false.
Proof. apply prepare_cmd_safe_without_backslash. reflexivity. Defined.

End EscaperReadBack.

(** ** The defaults of the subprocess options *)

Section KwargsDefaults.
Implicit Types (kwargs : gmap string pyval) (k : string) (v : pyval).
#[local] Set Warnings "-clear-no-such-hyp".

Lemma setdefault_subseteq k v kwargs : kwargs ⊆ setdefault k v kwargs.
Proof.
  unfold setdefault. destruct (kwargs !! k) eqn:Hk; [reflexivity|].
  now apply insert_subseteq.
Qed.

Lemma dom_setdefault k v kwargs :
  dom (setdefault k v kwargs) = ({[k]} ∪ dom kwargs : gset string).
Proof.
  unfold setdefault. destruct (kwargs !! k) eqn:Hk.
  - assert (k ∈ dom kwargs) by (apply elem_of_dom; eauto). set_solver.
  - apply dom_insert_L.
Qed.

(** X5. Preparing the options only adds: every option of the caller is
    kept with its value, the keys afterwards are those of the caller with
    [text], [check] and [capture_output], and preparing twice is preparing
    once. *)
Theorem prepare_subprocess_kwargs_only_adds kwargs :
  kwargs ⊆ _prepare_subprocess_kwargs kwargs
  /\ dom (_prepare_subprocess_kwargs kwargs)
     = ({["text"; "check"; "capture_output"]} ∪ dom kwargs : gset string)
  /\ _prepare_subprocess_kwargs (_prepare_subprocess_kwargs kwargs)
     = _prepare_subprocess_kwargs kwargs.
Proof.
  split; [|split].
  - unfold _prepare_subprocess_kwargs.
    etrans; [apply (setdefault_subseteq "text" (PyBool true))|].
    etrans; [apply (setdefault_subseteq "check" (PyBool true))|].
    apply setdefault_subseteq.
  - unfold _prepare_subprocess_kwargs. rewrite !dom_setdefault. set_solver.
  - apply prepare_subprocess_kwargs_idem.
Qed.

(** X6. The values of the three options after preparing: [text] and
    [check] are those of the caller, or true; [capture_output] is that of
    the caller, or true exactly when the caller gave neither [stdout] nor
    [stderr]. *)
Theorem prepare_subprocess_kwargs_values kwargs :
  _prepare_subprocess_kwargs kwargs !! "text"
  = Some (default (PyBool true) (kwargs !! "text"))
  /\ _prepare_subprocess_kwargs kwargs !! "check"
     = Some (default (PyBool true) (kwargs !! "check"))
  /\ _prepare_subprocess_kwargs kwargs !! "capture_output"
     = Some (default
               (PyBool (bool_decide (kwargs !! "stdout" = None /\ kwargs !! "stderr" = None)))
               (kwargs !! "capture_output")).
Proof.
  unfold _prepare_subprocess_kwargs. split; [|split].
  - rewrite !lookup_setdefault_ne by discriminate. apply lookup_setdefault.
  - rewrite lookup_setdefault_ne by discriminate. rewrite lookup_setdefault.
    now rewrite lookup_setdefault_ne by discriminate.
  - rewrite lookup_setdefault.
    unfold isdisjoint. cbn [forallb].
    rewrite !lookup_setdefault_ne by discriminate.
    do 3 f_equal.
    destruct (kwargs !! "stdout"), (kwargs !! "stderr"); reflexivity.
Qed.

End KwargsDefaults.

(** ** The slices of a job, counted *)

From Stdlib Require DecimalZ DecimalPos.

Section SlicesDistinct.





End SlicesDistinct.

(** ** More on the calls of the TPU dispatcher *)

Lemma forallb_pointwise {A} (f g : A -> bool) (l : list A) :
  (forall x, f x = g x) -> forallb f l = forallb g l.
Proof. intros H. induction l as [|a l IH]; [reflexivity|]. cbn. now rewrite H, IH. Qed.

Lemma forallb_of_map {A B} (f : B -> bool) (g : A -> B) (l : list A) :
  forallb f (map g l) = forallb (fun x => f (g x)) l.
Proof. induction l as [|a l IH]; [reflexivity|]. cbn. now rewrite IH. Qed.

Section MoreCalls.
Import TPUQRMJob Dispatch.
Variables (w : World) (cfg : Config) (home : string).

Lemma has_public_ip_spec node :
  has_public_ip node = true <->
  exists endpoint access_config ip,
    In endpoint (networkEndpoints node)
    /\ In access_config (accessConfig endpoint)
    /\ natIP access_config = Some ip /\ ip <> EmptyString.
Proof.
  unfold has_public_ip. rewrite existsb_exists. split.
  - intros (endpoint & He & H). apply existsb_exists in H as (ac & Ha & H).
    destruct (natIP ac) as [ip|] eqn:Hip; [|discriminate].
    exists endpoint, ac, ip. repeat split; auto.
    intros ->. discriminate.
  - intros (endpoint & ac & ip & He & Ha & Hip & Hne).
    exists endpoint. split; [exact He|]. apply existsb_exists.
    exists ac. split; [exact Ha|]. rewrite Hip. cbn.
    apply negb_true_iff. now apply String.eqb_neq.
Qed.

(** X10. Outside the cloud network, the first call of an instance queries
    the node once (the queued resource when there are several slices) and
    tunnels through IAP exactly when no access config of any endpoint of
    the node has a non-empty natIP: every gcloud invocation has the text
    below, with [--tunnel-through-iap] before the flags of the caller
    when it tunnels and the flags of the caller alone otherwise; the
    answer is kept in the instance. *)
Theorem outside_tunnels_iff_no_public_ip (c : Call) st node :
  running_from_vm w = false ->
  _use_iap st = None ->
  node_of w cfg = Some node ->
  session_fits c = true ->
  let public :=
    exists endpoint access_config ip,
      In endpoint (networkEndpoints node)
      /\ In access_config (accessConfig endpoint)
      /\ natIP access_config = Some ip /\ ip <> EmptyString in
  let command :=
    "sudo bash -c " ++ _prepare_cmd_for_gcloud_ssh ("pushd /root && " ++ cmd c) in
  let remote :=
    match session_of c with
    | Some session => "sudo screen -dmS " ++ session ++ " " ++ command
    | None => command
    end in
  let line (tunnel : bool) s :=
    "gcloud alpha compute -q tpus tpu-vm ssh " ++ s
    ++ " --project=" ++ project (base cfg)
    ++ " --zone=" ++ zone (base cfg)
    ++ " --worker=" ++ str (worker c)
    ++ " --batch-size=" ++ str (batch_size c)
    ++ " " ++ (if tunnel then "--tunnel-through-iap " ++ extra_ssh_flags c
               else extra_ssh_flags c)
    ++ " --command=" ++ String dquote (remote ++ String dquote EmptyString) in
  exists evs k tunnel,
    snd (_execute_remote_cmd w cfg home c st)
    = {| _use_iap := Some tunnel;
         trace := trace st
                  ++ EvLiveQuery (1 <? num_replicas (accelerator cfg))%Z (name (base cfg)) true
                     :: evs |}
    /\ (tunnel = false <-> public)
    /\ queries evs = []
    /\ (1 <= k)%nat
    /\ ssh_invocations evs = firstn k (map (line tunnel) (slices cfg)).
Proof.
  intros Hvm Hu Hnode Hfit public command remote line.
  assert (has_public_ip node = true <-> public) as Hpublic by apply has_public_ip_spec.
  unfold _execute_remote_cmd. unfold bind at 1. unfold route. rewrite Hvm.
  unfold bind at 1. rewrite infer_iap_spec, Hu, Hnode. cbn zeta.
  destruct (has_public_ip node); cbn [negb]; cbv beta iota; unfold ret at 1;
    unfold bind at 1; rewrite detach_spec, Hfit.
  - destruct (for_slices_trace w cfg (worker c) (batch_size c) (extra_ssh_flags c)
                (remote_cmd c) (slices cfg) (kwargs c) []
                {| _use_iap := Some false;
                   trace := trace st
                            ++ [EvLiveQuery (1 <? num_replicas (accelerator cfg))%Z
                                  (name (base cfg)) true] |}) as (k & Hk1 & Hk).
    rewrite Hk. unfold emit. cbn [_use_iap trace].
    eexists _, k, false. split; [now rewrite <- app_assoc|].
    split; [tauto|]. split; [apply queries_runs|]. split; [apply Hk1, slices_nonempty|].
    rewrite ssh_invocations_lines, firstn_map. reflexivity.
  - destruct (for_slices_trace w cfg (worker c) (batch_size c)
                ("--tunnel-through-iap " ++ extra_ssh_flags c)
                (remote_cmd c) (slices cfg) (kwargs c) []
                {| _use_iap := Some true;
                   trace := trace st
                            ++ [EvLiveQuery (1 <? num_replicas (accelerator cfg))%Z
                                  (name (base cfg)) true] |}) as (k & Hk1 & Hk).
    rewrite Hk. unfold emit. cbn [_use_iap trace].
    eexists _, k, true. split; [now rewrite <- app_assoc|].
    split; [split; [discriminate|intros H; apply Hpublic in H; discriminate]|].
    split; [apply queries_runs|]. split; [apply Hk1, slices_nonempty|].
    rewrite ssh_invocations_lines, firstn_map. reflexivity.
Qed.

(** X11. Outside the cloud network, with nothing in the cache, a job whose
    node does not exist cannot be dispatched: the call raises ValueError
    naming the job after the one live query, runs no command and leaves
    the cache empty. *)
Theorem missing_node_refuses_dispatch (c : Call) st :
  running_from_vm w = false ->
  _use_iap st = None ->
  node_of w cfg = None ->
  _execute_remote_cmd w cfg home c st
  = (Raise (ValueError ("Expected TPU " ++ name (base cfg) ++ " to exist")),
     {| _use_iap := None;
        trace := trace st
                 ++ [EvLiveQuery (1 <? num_replicas (accelerator cfg))%Z (name (base cfg))
                       false] |}).
Proof.
  intros Hvm Hu Hnode.
  unfold _execute_remote_cmd. unfold bind at 1. unfold route. rewrite Hvm.
  unfold bind at 1. rewrite infer_iap_spec, Hu, Hnode. cbn zeta.
  unfold emit. now rewrite Hu.
Qed.

Lemma for_slices_is_ok worker batch_size fl cmd ss : forall kwargs procs st,
  is_ok (fst (for_slices w cfg worker batch_size fl cmd ss kwargs procs st))
  = forallb (fun s => negb (trips w kwargs (cmd_for_slice cfg s worker batch_size fl cmd))) ss.
Proof.
  induction ss as [|s ss IH]; intros kwargs procs st; [reflexivity|].
  cbn [for_slices forallb]. unfold bind at 1. rewrite subprocess_run_spec.
  change (check_of (_prepare_subprocess_kwargs kwargs) && _)
    with (trips w kwargs (cmd_for_slice cfg s worker batch_size fl cmd)).
  destruct (trips w kwargs _); [reflexivity|].
  rewrite IH. cbn [negb andb]. apply forallb_pointwise. intros x. now rewrite trips_prepare.
Qed.

(** X9. [_execute] runs the command of the job with the default options:
    once it is routed, it returns exactly when the gcloud command of every
    slice exits with status 0, and raises otherwise. *)
Theorem execute_succeeds_iff_all_slices_exit_zero st fl :
  flags_of w cfg st EmptyString = Some fl ->
  is_ok (fst (_execute w cfg home st))
  = forallb (fun line => (exit_status w line =? 0)%Z)
            (cmd_lines cfg (call (command (base cfg))) fl).
Proof.
  intros Hfl. unfold _execute.
  destruct (execute_remote_cmd_runs w cfg home (call (command (base cfg))) st fl Hfl eq_refl)
    as (evs & u & _ & _ & He).
  unfold bind. rewrite He.
  match goal with
  | |- is_ok (fst (match ?r with _ => _ end)) = _ =>
      assert (is_ok (fst (match r with
                          | (Ok a, st') => ret tt st'
                          | (Raise e, st') => (Raise e, st')
                          end)) = is_ok (fst r)) as -> by (destruct r as [[?|?] ?]; reflexivity)
  end.
  rewrite for_slices_is_ok. unfold cmd_lines. rewrite forallb_of_map.
  apply forallb_pointwise. intros s. unfold trips.
  rewrite check_of_prepare. cbn [call kwargs]. rewrite lookup_empty.
  cbn [andb]. apply negb_involutive.
Qed.

End MoreCalls.

(** ** More sample calls *)

Section MoreSamples.
Import TPUQRMJob Dispatch Sample.

Let public_node : Node := node (Some "34.1.2.3").
Let private_node : Node := node None.

Let line (n : Z) (fl s : string) : string :=
  cmd_for_slice (tpu n) s (PyStr "all") (PyInt 100) fl (remote_cmd (call "echo hi")).

Let with_session (s : string) : Call :=
  {| cmd := "echo hi"; worker := PyStr "all"; detached_session := Some s;
     batch_size := PyInt 100; extra_ssh_flags := EmptyString; kwargs := ∅ |}.

(** The text of the command line of a slice of the sample job, for the
    flags [fl] and the remote command [remote]. *)
Let text (fl remote s : string) : string :=
  "gcloud alpha compute -q tpus tpu-vm ssh " ++ s
  ++ " --project=proj --zone=us-central2-b --worker=all --batch-size=100 " ++ fl
  ++ " --command=" ++ String dquote (remote ++ String dquote EmptyString).

Let echo : string := "sudo bash -c 'pushd /root && echo hi'".

Lemma checked_exit_aborts_witness :
  let w := world false (Some public_node) None (text EmptyString echo "job-1") in
  exists e st' evs,
    _execute_remote_cmd w (tpu 3) home (call "echo hi") init = (Raise e, st')
    /\ trace st' = (trace init ++ evs)%list
    /\ ssh_invocations evs
       = (map (text EmptyString echo) ["job-0"] ++ [text EmptyString echo "job-1"])%list.
Proof.
  intros w.
  refine (checked_exit_aborts w (tpu 3) home (call "echo hi") init EmptyString
            ["job-0"] "job-1" ["job-2"] _ _ _ _ _).
  - reflexivity.
  - reflexivity.
  - reflexivity.
  - intros x [<-|[]]. vm_compute. reflexivity.
  - vm_compute. reflexivity.
Defined.

Lemma outside_tunnels_iff_no_public_ip_witness :
  let w := world false (Some private_node) None "never" in
  exists evs k tunnel,
    snd (_execute_remote_cmd w (tpu 2) home (call "echo hi") init)
    = {| _use_iap := Some tunnel;
         trace := trace init ++ EvLiveQuery true "job" true :: evs |}
    /\ (tunnel = false <->
        exists endpoint access_config ip,
          In endpoint (networkEndpoints private_node)
          /\ In access_config (accessConfig endpoint)
          /\ natIP access_config = Some ip /\ ip <> EmptyString)
    /\ queries evs = []
    /\ (1 <= k)%nat
    /\ ssh_invocations evs
       = firstn k (map (text (if tunnel then "--tunnel-through-iap " else EmptyString) echo)
                       ["job-0"; "job-1"]).
Proof.
  intros w.
  destruct (outside_tunnels_iff_no_public_ip w (tpu 2) home (call "echo hi") init private_node)
    as (evs & k & tunnel & H1 & H2 & H3 & H4 & H5); try reflexivity.
  exists evs, k, tunnel. repeat (split; [assumption|]).
  rewrite H5. destruct tunnel; reflexivity.
Defined.

(** The two slices of that call are reached through the tunnel. *)
Example private_node_is_tunnelled :
  let w := world false (Some private_node) None "never" in
  ssh_invocations (trace (snd (_execute_remote_cmd w (tpu 2) home (call "echo hi") init)))
  = [line 2 "--tunnel-through-iap " "job-0"; line 2 "--tunnel-through-iap " "job-1"].
Proof. vm_compute. reflexivity. Qed.

Lemma missing_node_refuses_dispatch_witness :
  let w := world false None None "never" in
  _execute_remote_cmd w (tpu 1) home (call "echo hi") init
  = (Raise (ValueError "Expected TPU job to exist"),
     {| _use_iap := None; trace := [] ++ [EvLiveQuery false "job" false] |}).
Proof.
  intros w.
  apply (missing_node_refuses_dispatch w (tpu 1) home (call "echo hi") init); reflexivity.
Defined.

Lemma execute_succeeds_iff_all_slices_exit_zero_witness :
  let w := world false (Some public_node) None (line 2 EmptyString "job-1") in
  is_ok (fst (_execute w (tpu 2) home init))
  = forallb (fun l => (exit_status w l =? 0)%Z)
            (cmd_lines (tpu 2) (call (command (base (tpu 2)))) EmptyString).
Proof.
  intros w.
  apply (execute_succeeds_iff_all_slices_exit_zero w (tpu 2) home init EmptyString).
  reflexivity.
Defined.

Lemma tpu_long_session_rejected_witness :
  let w := world false (Some public_node) None "never" in
  exists msg st' evs,
    _execute_remote_cmd w (tpu 2) home (with_session (session 81)) init
    = (Raise (ValueError msg), st')
    /\ trace st' = (trace init ++ evs)%list
    /\ ssh_invocations evs = [].
Proof.
  intros w.
  apply (tpu_long_session_rejected w (tpu 2) home (with_session (session 81)) init
           (session 81)).
  - reflexivity.
  - vm_compute. lia.
Defined.

Lemma tpu_session_of_80_accepted_witness :
  let w := world false (Some public_node) None "never" in
  let remote := "sudo screen -dmS " ++ session 80 ++ " " ++ echo in
  session_fits (with_session (session 80)) = true /\
  exists evs k,
    trace (snd (_execute_remote_cmd w (tpu 2) home (with_session (session 80)) init))
    = (trace init ++ evs)%list
    /\ (1 <= k)%nat
    /\ ssh_invocations evs = firstn k (map (text EmptyString remote) ["job-0"; "job-1"]).
Proof.
  intros w remote.
  refine (tpu_session_of_80_accepted w (tpu 2) home (with_session (session 80)) init
            (session 80) EmptyString _ _ _); reflexivity.
Defined.

Lemma resolved_never_queries_again_witness :
  let gone := world false None None "never" in
  let st := {| _use_iap := Some true; trace := [] |} in
  let calls := [(gone, call "echo hi"); (gone, call "echo hi")] in
  queries (trace (run_calls (tpu 2) home calls st)) = queries (trace st)
  /\ _use_iap (run_calls (tpu 2) home calls st) = _use_iap st.
Proof.
  intros gone st calls.
  apply (resolved_never_queries_again (tpu 2) home calls st). cbn. eauto.
Defined.

End MoreSamples.

(** ** The CPU dispatcher with its defaults *)

(** X15. [CPUJob._execute] runs one gcloud command, with the text below:
    the command of the job behind a login shell and without [screen]; it
    returns when that command exits with status 0 and raises otherwise. *)
Theorem cpu_execute_succeeds_iff_exit_zero w (cfg : GCPJobConfig) st :
  let remote :=
    "sudo -i bash -c " ++ _prepare_cmd_for_gcloud_ssh ("pushd /root && " ++ command cfg) in
  let line :=
    "gcloud compute -q ssh " ++ name cfg
    ++ " --project=" ++ project cfg
    ++ " --zone=" ++ zone cfg
    ++ " --command=" ++ String dquote (remote ++ String dquote EmptyString) in
  snd (CPUJob._execute w cfg st) = emit [EvRun line] st
  /\ is_ok (fst (CPUJob._execute w cfg st)) = (exit_status w line =? 0)%Z.
Proof.
  intros remote line. unfold CPUJob._execute, CPUJob._execute_remote_cmd.
  unfold bind. rewrite subprocess_run_spec, check_of_prepare, lookup_empty.
  cbn [andb].
  change (CPUJob.ssh_cmd cfg _) with line.
  destruct (exit_status w line =? 0)%Z; split; reflexivity.
Qed.

(** ** More on the manifest builder *)

Section MoreManifest.
Import TPUGKEJob.
Variable table : gmap string SystemCharacteristics.
Variable infer : string -> result string.
Variable checks : Urllib.Checks.

(** X16. [__init__] accepts a configuration exactly when its bundler is a
    docker bundler, the TPU type of its instance type is inferred and that
    type has a row in the table; the instance then holds the configuration
    and that type. Whatever it raises otherwise is NotImplementedError or
    what the inference raised. *)
Theorem init_accepts_iff cfg :
  (forall self,
     __init__ table infer cfg = Ok self <->
     docker_bundler (bundler cfg) = true
     /\ infer (instance_type (accelerator cfg)) = Ok (_tpu_type self)
     /\ is_Some (table !! _tpu_type self)
     /\ self = {| config := cfg; _tpu_type := _tpu_type self;
                  _gcsfuse_volume := "gcs-fuse-csi-ephemeral" |})
  /\ (forall e,
        __init__ table infer cfg = Raise e ->
        (exists msg, e = NotImplementedError msg)
        \/ infer (instance_type (accelerator cfg)) = Raise e).
Proof.
  unfold __init__. fold (docker_bundler (bundler cfg)). split.
  - intros self. split.
    + destruct (docker_bundler (bundler cfg)); [|discriminate]. cbn [negb].
      destruct (infer _) as [t|e]; [|discriminate]. cbn [rbind].
      destruct (table !! t) as [row|] eqn:Hrow; [|discriminate].
      intros [= <-]. cbn. rewrite Hrow. eauto.
    + intros (-> & -> & [row Hrow] & Hself). cbn [negb rbind]. rewrite Hrow.
      f_equal. symmetry. exact Hself.
  - intros e. destruct (docker_bundler (bundler cfg)); cbn [negb].
    + destruct (infer _) as [t|e']; cbn [rbind].
      * destruct (table !! t); [discriminate|]. intros [= <-]. eauto.
      * intros [= <-]. auto.
    + intros [= <-]. eauto.
Qed.

(** X17. For a job that [__init__] accepted the container is always
    built and no level ends with KeyError. The pod, the job and the JobSet
    are built exactly when the job has no mount or [urlparse] parses the
    path of its mount; when it does not, each of the three ends with the
    error of [urlparse]. When they are built each level holds the one
    below it: the pod has the container as its only container, the job has
    the pod as its template, and the JobSet, named after the job, has the
    job as the template of its only replicated job. *)
Theorem accepted_job_compiles_at_every_level w cfg self :
  __init__ table infer cfg = Ok self ->
  let parsed :=
    match gcsfuse_mount cfg with
    | Some m => rbind (Urllib.urlparse checks (gcs_path m)) (fun _ => Ok tt)
    | None => Ok tt
    end in
  exists container,
    _build_container table self = Ok container /\
    match parsed with
    | Ok _ =>
        exists pod job jobset replicated,
          _build_pod table checks w self = Ok pod
          /\ _build_job table checks w self = Ok job
          /\ _build_jobset table checks w self = Ok jobset
          /\ at_path ["spec"; "containers"] pod = Some (TList [container])
          /\ at_path ["spec"; "template"] job = Some pod
          /\ at_path ["spec"; "replicatedJobs"] jobset = Some (TList [replicated])
          /\ field "template" replicated = Some job
          /\ at_path ["metadata"; "name"] jobset = Some (TStr (name (base cfg)))
    | Raise e =>
        _build_pod table checks w self = Raise e
        /\ _build_job table checks w self = Raise e
        /\ _build_jobset table checks w self = Raise e
    end.
Proof.
  intros Hinit parsed. subst parsed.
  destruct (init_spec table infer cfg self Hinit) as (Hcfg & _ & _ & system & Hrow).
  unfold _build_jobset, _build_job, _build_pod.
  rewrite (system_of_row _ _ _ Hrow). cbn [rbind].
  assert (exists container, _build_container table self = Ok container) as [container Hc].
  { unfold _build_container. rewrite (system_of_row _ _ _ Hrow). cbn [rbind]. eauto. }
  exists container. split; [exact Hc|].
  rewrite Hc, Hcfg. cbn [rbind].
  destruct (gcsfuse_mount cfg) as [m|];
    [destruct (Urllib.urlparse checks (gcs_path m)) as [url|e]|]; cbn [rbind];
    [| repeat split |];
    (eexists _, _, _, _; repeat (split; [reflexivity|]); reflexivity).
Qed.

End MoreManifest.

Section PodAndContainer.
Import TPUGKEJob.
Variable table : gmap string SystemCharacteristics.
Variable infer : string -> result string.
Variable checks : Urllib.Checks.

(** A pod was built: the path of the mount, if any, was parsed. *)
Local Ltac built cfg :=
  let m := fresh "m" in
  let url := fresh "url" in
  destruct (gcsfuse_mount cfg) as [m|];
  [destruct (Urllib.urlparse checks (gcs_path m)) as [url|]; [|discriminate]|];
  cbn [rbind]; intros [= <-].

(** X18. The volume mounts of the container and the volumes of a pod
    that was built go together: with a GCS FUSE mount there is one of
    each, under the same name and with the same read-only flag, the mount
    at the path of the configuration; without one there is neither. *)
Theorem mounts_match_volumes w cfg self pod :
  __init__ table infer cfg = Ok self ->
  _build_pod table checks w self = Ok pod ->
  exists container mounts volumes,
    _build_container table self = Ok container
    /\ field "volumeMounts" container = Some (TList mounts)
    /\ at_path ["spec"; "volumes"] pod = Some (TList volumes)
    /\ length mounts = length volumes
    /\ length mounts = match gcsfuse_mount cfg with Some _ => 1%nat | None => 0%nat end
    /\ map (field "name") mounts = map (field "name") volumes
    /\ map (field "readOnly") mounts = map (at_path ["csi"; "readOnly"]) volumes
    /\ map (field "mountPath") mounts
       = match gcsfuse_mount cfg with
         | Some m => [Some (TStr (mount_path m))]
         | None => []
         end.
Proof.
  intros Hinit.
  destruct (init_spec table infer cfg self Hinit) as (Hcfg & _ & _ & system & Hrow).
  unfold _build_pod, _build_container.
  rewrite (system_of_row _ _ _ Hrow), Hcfg. cbn [rbind].
  built cfg; (eexists _, _, _; repeat (split; [reflexivity|]); reflexivity).
Qed.

(** X19. The environment of the container lists the variables of the
    configuration in their order, and every value is a string, whatever
    the type of the value in the configuration. *)
Theorem container_env_is_stringified cfg self :
  __init__ table infer cfg = Ok self ->
  exists container envs,
    _build_container table self = Ok container
    /\ field "env" container = Some (TList envs)
    /\ map (field "name") envs = map (fun kv => Some (TStr (fst kv))) (env_vars cfg)
    /\ map (field "value") envs = map (fun kv => Some (TStr (str (snd kv)))) (env_vars cfg).
Proof.
  intros Hinit.
  destruct (init_spec table infer cfg self Hinit) as (Hcfg & _ & _ & system & Hrow).
  unfold _build_container. rewrite (system_of_row _ _ _ Hrow), Hcfg. cbn [rbind].
  eexists _, _. split; [reflexivity|]. split; [reflexivity|].
  rewrite !map_map. split; reflexivity.
Qed.

(** X20. The node selector of a pod that was built has four keys, all
    different: the TPU accelerator and the TPU topology of the row of the
    table, the node pool id, which is the name of the job, and one key for
    the reservation or for spot nodes. *)
Theorem node_selector_pins_node_pool w cfg self pod :
  __init__ table infer cfg = Ok self ->
  _build_pod table checks w self = Ok pod ->
  exists selector system last,
    table !! _tpu_type self = Some system
    /\ at_path ["spec"; "nodeSelector"] pod = Some (TDict selector)
    /\ map fst selector
       = ["cloud.google.com/gke-tpu-accelerator"; "cloud.google.com/gke-tpu-topology";
          "provisioner-nodepool-id"; last]
    /\ NoDup (map fst selector)
    /\ Dict.get "cloud.google.com/gke-tpu-accelerator" selector
       = Some (TStr (gke_accelerator system))
    /\ Dict.get "cloud.google.com/gke-tpu-topology" selector = Some (TStr (topology system))
    /\ Dict.get "provisioner-nodepool-id" selector = Some (TStr (name (base cfg))).
Proof.
  intros Hinit.
  destruct (init_spec table infer cfg self Hinit) as (Hcfg & _ & _ & system & Hrow).
  unfold _build_pod, _build_container.
  rewrite (system_of_row _ _ _ Hrow), Hcfg. cbn [rbind].
  assert (forall a b c d : string,
             a <> b -> a <> c -> a <> d -> b <> c -> b <> d -> c <> d ->
             NoDup [a; b; c; d]) as Hnodup.
  { intros a b c d ? ? ? ? ? ?. repeat constructor; rewrite ?elem_of_cons, ?elem_of_nil; tauto. }
  built cfg;
    destruct (bool_decide _ && opt_truthy (reservation cfg));
    (eexists _, system, _; split; [exact Hrow|];
     split; [reflexivity|]; split; [reflexivity|];
     split; [apply Hnodup; discriminate|]; repeat split).
Qed.

(** X21. Unless the variable BASTION_TIER of the environment is 0, the
    reservation of the configuration plays no part: two jobs that differ
    in it alone compile to the same manifest. *)
Theorem reservation_ignored_without_tier w self r1 r2 :
  environ w !! "BASTION_TIER" <> Some "0" ->
  _build_jobset table checks w (with_reservation r1 self)
  = _build_jobset table checks w (with_reservation r2 self).
Proof.
  intros Htier.
  unfold _build_jobset, _build_job, _build_pod, _build_container, system_of, image,
    with_reservation.
  cbn [config reservation base accelerator gcsfuse_mount bundler env_vars _tpu_type
       _gcsfuse_volume].
  rewrite (bool_decide_eq_false_2 _ Htier). reflexivity.
Qed.

End PodAndContainer.

(** ** Bucket and directory of any gs path *)

Section GsPaths.
Import Urllib.

Lemma break_at_app (p : ascii -> bool) (a rest : string) :
  forall_chars (fun c => negb (p c)) a = true ->
  match rest with EmptyString => True | String c _ => p c = true end ->
  break_at p (a ++ rest) = (a, rest).
Proof.
  intros Ha Hrest. induction a as [|c a IH].
  - cbn [append]. destruct rest as [|c rest]; [reflexivity|].
    cbn [break_at]. now rewrite Hrest.
  - cbn [forall_chars] in Ha. apply andb_true_iff in Ha as [Hc Ha].
    cbn [append break_at]. apply negb_true_iff in Hc. rewrite Hc, (IH Ha). reflexivity.
Qed.

Lemma append_empty_r (s : string) : s ++ EmptyString = s.
Proof. induction s as [|c s IH]; [reflexivity|]. cbn [append]. now rewrite IH. Qed.

Lemma break_at_none (p : ascii -> bool) (s : string) :
  forall_chars (fun c => negb (p c)) s = true -> break_at p s = (s, EmptyString).
Proof.
  intros H. rewrite <- (append_empty_r s) at 1. now apply break_at_app.
Qed.

Lemma forall_chars_impl (p q : ascii -> bool) (s : string) :
  (forall c, p c = true -> q c = true) ->
  forall_chars p s = true -> forall_chars q s = true.
Proof.
  intros Hpq. induction s as [|c s IH]; [reflexivity|].
  cbn [forall_chars]. intros H. apply andb_true_iff in H as [H1 H2].
  now rewrite (Hpq c H1), (IH H2).
Qed.

Lemma forall_chars_app (p : ascii -> bool) (a b : string) :
  forall_chars p (a ++ b) = forall_chars p a && forall_chars p b.
Proof.
  induction a as [|c a IH]; [reflexivity|].
  cbn [append forall_chars]. now rewrite IH, andb_assoc.
Qed.

Lemma remove_none (p : ascii -> bool) (s : string) :
  forall_chars (fun c => negb (p c)) s = true -> remove p s = s.
Proof.
  induction s as [|c s IH]; [reflexivity|].
  cbn [forall_chars remove]. intros H. apply andb_true_iff in H as [Hc Hs].
  apply negb_true_iff in Hc. now rewrite Hc, (IH Hs).
Qed.

Lemma mem_char_none (x : ascii) (p : ascii -> bool) (s : string) :
  p x = false -> forall_chars p s = true -> mem_char x s = false.
Proof.
  intros Hx. induction s as [|c s IH]; [reflexivity|].
  cbn [forall_chars mem_char]. intros H. apply andb_true_iff in H as [Hc Hs].
  rewrite (IH Hs), orb_false_r. apply Ascii.eqb_neq. intros ->. congruence.
Qed.

(** A gs path with an ASCII bucket free of [/?#], of brackets and of tab,
    CR and LF, and a directory free of [?#] and of tab, CR and LF, parses
    into that bucket and the directory behind its slash, whatever the
    checks that are Python's own. *)
Lemma urlparse_gs (checks : Checks) (bucket dir : string) :
  forall_chars (fun c => is_ascii c && negb (mem_char c "/?#[]") && negb (unsafe_byte c))
    bucket = true ->
  forall_chars (fun c => negb (mem_char c "?#") && negb (unsafe_byte c)) dir = true ->
  urlparse checks ("gs://" ++ bucket ++ String slash dir)
  = Ok {| scheme := "gs"; netloc := bucket; path := String slash dir;
          params := EmptyString; query := EmptyString; fragment := EmptyString |}.
Proof.
  intros Hbucket Hdir.
  assert (forall c, mem_char c "/?#[]" = false -> mem_char c "/?#" = false) as Hsub.
  { intros c. cbn [mem_char]. rewrite !orb_false_r.
    intros H. repeat (apply orb_false_iff in H as [? H]).
    repeat (apply orb_false_iff; split; try assumption). }
  assert (forall_chars (fun c => negb (mem_char c "/?#")) bucket = true) as Hb.
  { refine (forall_chars_impl _ _ _ _ Hbucket).
    intros c H. apply andb_true_iff in H as [H _]. apply andb_true_iff in H as [_ H].
    apply negb_true_iff in H. apply negb_true_iff. now apply Hsub. }
  assert (forall_chars (fun c => negb (mem_char c "?#")) dir = true) as Hd.
  { refine (forall_chars_impl _ _ _ _ Hdir).
    intros c H. now apply andb_true_iff in H as [H _]. }
  assert (forall_chars (fun c => negb (unsafe_byte c)) ("gs://" ++ bucket ++ String slash dir)
          = true) as Hsafe.
  { change ("gs://" ++ bucket ++ String slash dir)
      with ("gs://" ++ (bucket ++ String slash dir)).
    rewrite !forall_chars_app.
    apply andb_true_iff. split; [reflexivity|]. apply andb_true_iff. split.
    - refine (forall_chars_impl _ _ _ _ Hbucket).
      intros c H. now apply andb_true_iff in H as [_ H].
    - cbn [forall_chars]. apply andb_true_iff. split; [reflexivity|].
      refine (forall_chars_impl _ _ _ _ Hdir).
      intros c H. now apply andb_true_iff in H as [_ H]. }
  assert (mem_char "["%char bucket = false) as Hopening.
  { refine (mem_char_none _ _ _ _ Hbucket). reflexivity. }
  assert (mem_char "]"%char bucket = false) as Hclosing.
  { refine (mem_char_none _ _ _ _ Hbucket). reflexivity. }
  assert (forall_chars is_ascii bucket = true) as Hascii.
  { refine (forall_chars_impl _ _ _ _ Hbucket).
    intros c H. apply andb_true_iff in H as [H _]. now apply andb_true_iff in H as [H _]. }
  assert (forall_chars (fun c => negb (Ascii.eqb "#"%char c)) (String slash dir) = true) as Hf.
  { cbn [forall_chars]. apply andb_true_iff. split; [reflexivity|].
    apply (forall_chars_impl (fun c => negb (mem_char c "?#"))); [|exact Hd].
    intros c. cbn [mem_char]. rewrite orb_false_r, negb_orb.
    intros H. now apply andb_true_iff in H as [_ H]. }
  assert (forall_chars (fun c => negb (Ascii.eqb "?"%char c)) (String slash dir) = true) as Hq.
  { cbn [forall_chars]. apply andb_true_iff. split; [reflexivity|].
    apply (forall_chars_impl (fun c => negb (mem_char c "?#"))); [|exact Hd].
    intros c. cbn [mem_char]. rewrite negb_orb.
    intros H. now apply andb_true_iff in H as [H _]. }
  unfold urlparse, urlsplit.
  change (lstrip c0_control_or_space ("gs://" ++ bucket ++ String slash dir))
    with ("gs://" ++ bucket ++ String slash dir).
  rewrite (remove_none _ _ Hsafe).
  change (split_scheme ("gs://" ++ bucket ++ String slash dir))
    with ("gs", String slash (String slash (bucket ++ String slash dir))).
  cbv beta iota.
  change (split_netloc (String slash (String slash (bucket ++ String slash dir))))
    with (break_at (fun c => mem_char c "/?#") (bucket ++ String slash dir)).
  rewrite (break_at_app _ bucket (String slash dir) Hb) by reflexivity.
  unfold check_brackets, _checknetloc. rewrite Hopening, Hclosing, Hascii, orb_true_r.
  cbn [andb orb negb rbind].
  unfold split_once.
  rewrite (break_at_none _ _ Hf). cbn [tail].
  rewrite (break_at_none _ _ Hq). reflexivity.
Qed.

End GsPaths.

Section GcsFuseAnyPath.
Import TPUGKEJob.
Variable table : gmap string SystemCharacteristics.
Variable infer : string -> result string.
Variable checks : Urllib.Checks.

(** X22. For every mount whose path is gs://, an ASCII bucket free of
    [/?#], of brackets and of tab, CR and LF, a slash and a directory free
    of [?#] and of tab, CR and LF, the pod is built and its one volume
    names that bucket and has the mount option only-dir= with the
    directory, less the slashes it starts with. *)
Theorem gcsfuse_volume_of_any_gs_path w cfg self m bucket dir :
  __init__ table infer cfg = Ok self ->
  gcsfuse_mount cfg = Some m ->
  gcs_path m = "gs://" ++ bucket ++ String slash dir ->
  forall_chars
    (fun c => Urllib.is_ascii c && negb (mem_char c "/?#[]") && negb (Urllib.unsafe_byte c))
    bucket = true ->
  forall_chars (fun c => negb (mem_char c "?#") && negb (Urllib.unsafe_byte c)) dir = true ->
  exists pod volume,
    _build_pod table checks w self = Ok pod
    /\ at_path ["spec"; "volumes"] pod = Some (TList [volume])
    /\ at_path ["csi"; "volumeAttributes"; "bucketName"] volume = Some (TStr bucket)
    /\ at_path ["csi"; "volumeAttributes"; "mountOptions"] volume
       = Some (TStr ("only-dir=" ++ lstrip_char slash dir)).
Proof.
  intros Hinit Hm Hpath Hb Hd.
  destruct (init_spec table infer cfg self Hinit) as (Hcfg & _ & _ & system & Hrow).
  unfold _build_pod, _build_container.
  rewrite (system_of_row _ _ _ Hrow), Hcfg, Hm. cbn [rbind].
  rewrite Hpath, (urlparse_gs checks bucket dir Hb Hd).
  cbn [rbind Urllib.netloc Urllib.path].
  assert (lstrip_char slash (String slash dir) = lstrip_char slash dir) as ->
    by (cbn [lstrip_char]; now rewrite Ascii.eqb_refl).
  eexists _, _. repeat (split; [reflexivity|]). reflexivity.
Qed.

End GcsFuseAnyPath.

(** ** More sample manifests *)

Section MoreManifestSamples.
Import TPUGKEJob Sample.

Let quiet (tier : option string) : World := world false None tier "never".
Let mount : GCSFuseMount := gcsfuse_mount_of "gs://my-bucket//logs/run-1".

Lemma accepted_job_compiles_at_every_level_witness :
  exists container,
    _build_container table (gke_job 2 None (Some mount)) = Ok container /\
    exists pod job jobset replicated,
      _build_pod table checks (quiet None) (gke_job 2 None (Some mount)) = Ok pod
      /\ _build_job table checks (quiet None) (gke_job 2 None (Some mount)) = Ok job
      /\ _build_jobset table checks (quiet None) (gke_job 2 None (Some mount)) = Ok jobset
      /\ at_path ["spec"; "containers"] pod = Some (TList [container])
      /\ at_path ["spec"; "template"] job = Some pod
      /\ at_path ["spec"; "replicatedJobs"] jobset = Some (TList [replicated])
      /\ field "template" replicated = Some job
      /\ at_path ["metadata"; "name"] jobset = Some (TStr "job").
Proof.
  refine (accepted_job_compiles_at_every_level table infer checks (quiet None)
            (gke 2 None (Some mount)) (gke_job 2 None (Some mount)) _).
  vm_compute. reflexivity.
Defined.

Lemma mounts_match_volumes_witness :
  exists pod container mounts volumes,
    _build_pod table checks (quiet None) (gke_job 2 None (Some mount)) = Ok pod
    /\ _build_container table (gke_job 2 None (Some mount)) = Ok container
    /\ field "volumeMounts" container = Some (TList mounts)
    /\ at_path ["spec"; "volumes"] pod = Some (TList volumes)
    /\ length mounts = length volumes
    /\ length mounts = 1%nat
    /\ map (field "name") mounts = map (field "name") volumes
    /\ map (field "readOnly") mounts = map (at_path ["csi"; "readOnly"]) volumes
    /\ map (field "mountPath") mounts = [Some (TStr "/output")].
Proof.
  destruct (_build_pod table checks (quiet None) (gke_job 2 None (Some mount)))
    as [pod|e] eqn:Hbuilt; [|vm_compute in Hbuilt; discriminate Hbuilt].
  destruct (mounts_match_volumes table infer checks (quiet None)
              (gke 2 None (Some mount)) (gke_job 2 None (Some mount)) pod)
    as (container & mounts & volumes & H).
  - vm_compute. reflexivity.
  - exact Hbuilt.
  - exists pod, container, mounts, volumes. split; [reflexivity|exact H].
Defined.

Lemma container_env_is_stringified_witness :
  exists container envs,
    _build_container table (gke_job 2 None None) = Ok container
    /\ field "env" container = Some (TList envs)
    /\ map (field "name") envs = [Some (TStr "STEPS")]
    /\ map (field "value") envs = [Some (TStr "10")].
Proof.
  apply (container_env_is_stringified table infer (gke 2 None None) (gke_job 2 None None)).
  vm_compute. reflexivity.
Defined.

Lemma node_selector_pins_node_pool_witness :
  exists pod selector system last,
    _build_pod table checks (quiet None) (gke_job 2 None None) = Ok pod
    /\ table !! "v4-16" = Some system
    /\ at_path ["spec"; "nodeSelector"] pod = Some (TDict selector)
    /\ map fst selector
       = ["cloud.google.com/gke-tpu-accelerator"; "cloud.google.com/gke-tpu-topology";
          "provisioner-nodepool-id"; last]
    /\ NoDup (map fst selector)
    /\ Dict.get "cloud.google.com/gke-tpu-accelerator" selector
       = Some (TStr (gke_accelerator system))
    /\ Dict.get "cloud.google.com/gke-tpu-topology" selector = Some (TStr (topology system))
    /\ Dict.get "provisioner-nodepool-id" selector = Some (TStr "job").
Proof.
  destruct (_build_pod table checks (quiet None) (gke_job 2 None None))
    as [pod|e] eqn:Hbuilt; [|vm_compute in Hbuilt; discriminate Hbuilt].
  destruct (node_selector_pins_node_pool table infer checks (quiet None)
              (gke 2 None None) (gke_job 2 None None) pod)
    as (selector & system & last & H).
  - vm_compute. reflexivity.
  - exact Hbuilt.
  - exists pod, selector, system, last. split; [reflexivity|exact H].
Defined.

Lemma reservation_ignored_without_tier_witness :
  _build_jobset table checks (quiet (Some "1"))
    (with_reservation (Some "res-1") (gke_job 2 None None))
  = _build_jobset table checks (quiet (Some "1"))
      (with_reservation None (gke_job 2 None None)).
Proof.
  apply (reservation_ignored_without_tier table checks (quiet (Some "1"))
           (gke_job 2 None None)).
  vm_compute. discriminate.
Defined.

Lemma gcsfuse_volume_of_any_gs_path_witness :
  exists pod volume,
    _build_pod table checks (quiet None) (gke_job 2 None (Some mount)) = Ok pod
    /\ at_path ["spec"; "volumes"] pod = Some (TList [volume])
    /\ at_path ["csi"; "volumeAttributes"; "bucketName"] volume = Some (TStr "my-bucket")
    /\ at_path ["csi"; "volumeAttributes"; "mountOptions"] volume
       = Some (TStr ("only-dir=" ++ lstrip_char slash "/logs/run-1")).
Proof.
  apply (gcsfuse_volume_of_any_gs_path table infer checks (quiet None)
           (gke 2 None (Some mount)) (gke_job 2 None (Some mount)) mount
           "my-bucket" "/logs/run-1").
  - vm_compute. reflexivity.
  - reflexivity.
  - reflexivity.
  - vm_compute. reflexivity.
  - vm_compute. reflexivity.
Defined.

(** The slashes the directory starts with are dropped. *)
Example only_dir_of_doubled_slash :
  lstrip_char slash "/logs/run-1" = "logs/run-1".
Proof. reflexivity. Qed.

End MoreManifestSamples.

(** ** The ssh-agent *)

Section AgentProperties.
Import Agent.



Lemma group_nonempty (s g r : string) : group s = Some (g, r) -> g <> EmptyString.
Proof.
  unfold group. destruct (to_semicolon s) as [[[|c g'] r']|]; try discriminate.
  intros [= <- _]. discriminate.
Qed.

Lemma last_pid_nonempty (s g : string) : last_pid s = Some g -> g <> EmptyString.
Proof.
  induction s as [|c s IH]; [discriminate|].
  cbn [last_pid]. destruct (last_pid s) as [g'|].
  - intros [= <-]. now apply IH.
  - unfold pid_at. destruct (strip_prefix _ _) as [r|]; [|discriminate].
    destruct (group r) as [[g' r']|] eqn:Hg; [|discriminate].
    intros [= <-]. exact (group_nonempty _ _ _ Hg).
Qed.

Lemma search_nonempty (s a b : string) :
  search s = Some (a, b) -> a <> EmptyString /\ b <> EmptyString.
Proof.
  assert (forall t, match_at t = Some (a, b) -> a <> EmptyString /\ b <> EmptyString) as Hat.
  { intros t. unfold match_at.
    destruct (strip_prefix _ t) as [r|]; [|discriminate].
    destruct (group r) as [[g rest]|] eqn:Hg; [|discriminate].
    destruct (last_pid rest) as [pid|] eqn:Hp; [|discriminate].
    intros [= <- <-]. split; [exact (group_nonempty _ _ _ Hg)|exact (last_pid_nonempty _ _ Hp)]. }
  induction s as [|c s IH].
  - cbn [search]. destruct (match_at EmptyString) eqn:Hm; [|discriminate].
    intros [= ->]. exact (Hat _ Hm).
  - cbn [search]. destruct (match_at (String c s)) eqn:Hm.
    + intros [= ->]. exact (Hat _ Hm).
    + exact IH.
Qed.






End AgentProperties.

Section AgentLifecycle.
Import Agent.
Variable sh : Shell.

Lemma opt_truthy_nonempty (s : string) : s <> EmptyString -> opt_truthy (Some s) = true.
Proof. intros H. cbn. apply negb_true_iff. now apply String.eqb_neq. Qed.

(** What a start that returns has done: nothing when an agent was already
    announced in the environment; otherwise it has run [ssh-agent -s],
    found the two groups in its output and set the two variables, and
    registered the kill. *)
Lemma start_ssh_agent_done p p1 :
  _start_ssh_agent sh p = (Done tt, p1) ->
  (opt_truthy (environ p !! "SSH_AGENT_PID") = true /\ p1 = p)
  \/ (opt_truthy (environ p !! "SSH_AGENT_PID") = false
      /\ exit_of sh "ssh-agent -s" = 0%Z
      /\ exists auth_sock agent_pid,
           search (stdout_of sh "ssh-agent -s") = Some (auth_sock, agent_pid)
           /\ p1 = {| environ := <["SSH_AGENT_PID" := agent_pid]>
                                   (<["SSH_AUTH_SOCK" := auth_sock]> (environ p));
                      atexit := atexit p ++ ["_kill_ssh_agent"];
                      runs := runs p ++ ["ssh-agent -s"] |}).
Proof.
  unfold _start_ssh_agent, run.
  destruct (opt_truthy (environ p !! "SSH_AGENT_PID")); cbn [negb].
  - intros [= <-]. auto.
  - cbn [andb]. destruct (Z.eqb_spec (exit_of sh "ssh-agent -s") 0) as [Hz|Hz]; cbn [negb].
    + destruct (search _) as [[auth_sock agent_pid]|] eqn:Hsearch; [|discriminate].
      intros [= <-]. right. split; [reflexivity|]. split; [exact Hz|]. eauto.
    + discriminate.
Qed.

(** X23. Starting the agent is done once: after a start that returned,
    the environment announces an agent with a non-empty process id, and a
    second start does nothing at all (no command, no change of the
    environment, no second registration of the kill). *)
Theorem start_ssh_agent_once p p1 :
  _start_ssh_agent sh p = (Done tt, p1) ->
  opt_truthy (environ p1 !! "SSH_AGENT_PID") = true
  /\ _start_ssh_agent sh p1 = (Done tt, p1).
Proof.
  intros Hstart.
  assert (opt_truthy (environ p1 !! "SSH_AGENT_PID") = true) as Hpid.
  { destruct (start_ssh_agent_done p p1 Hstart)
      as [[Hset ->]|(_ & _ & auth_sock & agent_pid & Hsearch & ->)]; [exact Hset|].
    cbn [environ]. rewrite lookup_insert_eq.
    apply opt_truthy_nonempty. now apply (search_nonempty _ _ _ Hsearch). }
  split; [exact Hpid|].
  unfold _start_ssh_agent. now rewrite Hpid.
Qed.

(** X24. A start that finds no agent in the environment and whose
    [ssh-agent -s] exits non-zero, or exits with 0 and prints nothing that
    the pattern matches, does not return: it raises, with AttributeError
    when the command exited with 0 (the agent it started is then left
    running), and it leaves the environment and the registrations as they
    were, after the one run of [ssh-agent -s]. *)
Theorem start_ssh_agent_failure_changes_nothing p :
  opt_truthy (environ p !! "SSH_AGENT_PID") = false ->
  exit_of sh "ssh-agent -s" <> 0%Z \/ search (stdout_of sh "ssh-agent -s") = None ->
  let out := _start_ssh_agent sh p in
  fst out <> Done tt
  /\ (exit_of sh "ssh-agent -s" = 0%Z -> fst out = AttributeError)
  /\ snd out
     = {| environ := environ p; atexit := atexit p; runs := runs p ++ ["ssh-agent -s"] |}.
Proof.
  intros Hpid Hfails. unfold _start_ssh_agent, run. rewrite Hpid. cbn [negb andb].
  destruct (Z.eqb_spec (exit_of sh "ssh-agent -s") 0) as [Hz|Hz]; cbn [negb].
  - destruct Hfails as [Hexit|Hsearch]; [contradiction|]. rewrite Hsearch.
    cbn [fst snd]. split; [discriminate|]. split; reflexivity.
  - cbn [fst snd]. split; [discriminate|]. split; [contradiction|reflexivity].
Qed.

(** X25. Start, then the end of the program: from an environment with
    neither variable and nothing registered, a start that returned
    followed by the exit of the program runs [ssh-agent -s] and then
    [ssh-agent -k], once each, and leaves the environment exactly as it
    was before the start. *)
Theorem start_then_exit_restores_environment p p1 :
  environ p !! "SSH_AGENT_PID" = None ->
  environ p !! "SSH_AUTH_SOCK" = None ->
  atexit p = [] ->
  _start_ssh_agent sh p = (Done tt, p1) ->
  environ (at_exit sh p1) = environ p
  /\ runs (at_exit sh p1) = (runs p ++ ["ssh-agent -s"; "ssh-agent -k"])%list.
Proof.
  intros Hpid Hsock Hreg Hstart.
  destruct (start_ssh_agent_done p p1 Hstart)
    as [[Hset _]|(_ & _ & auth_sock & agent_pid & _ & ->)].
  - rewrite Hpid in Hset. discriminate.
  - unfold at_exit. cbn [atexit]. rewrite Hreg. cbn [app rev fold_left].
    unfold _kill_ssh_agent, run. cbn [andb snd environ runs]. split.
    + rewrite (delete_insert_ne _ "SSH_AUTH_SOCK" "SSH_AGENT_PID") by discriminate.
      rewrite (delete_insert_id (environ p) "SSH_AUTH_SOCK") by exact Hsock.
      now rewrite (delete_insert_id (environ p) "SSH_AGENT_PID") by exact Hpid.
    + now rewrite <- app_assoc.
Qed.


End AgentLifecycle.

Section AgentSamples.
Import Agent.

Let linux : Shell :=
  {| exit_of := fun _ => 0%Z;
     stdout_of := fun _ => agent_output "/tmp/ssh-g4aYlFVLLugX/agent.52090" "52091" |}.

Let fresh : Proc := {| environ := {["HOME" := "/root"]}; atexit := []; runs := [] |}.

Let started : Proc :=
  {| environ := <["SSH_AGENT_PID" := "52091"]>
                  (<["SSH_AUTH_SOCK" := "/tmp/ssh-g4aYlFVLLugX/agent.52090"]>
                     {["HOME" := "/root"]});
     atexit := ["_kill_ssh_agent"];
     runs := ["ssh-agent -s"] |}.

Let failing : Shell := {| exit_of := fun _ => 2%Z; stdout_of := fun _ => EmptyString |}.

Lemma start_ssh_agent_once_witness :
  opt_truthy (environ started !! "SSH_AGENT_PID") = true
  /\ _start_ssh_agent linux started = (Done tt, started).
Proof.
  apply (start_ssh_agent_once linux fresh started). vm_compute. reflexivity.
Defined.

Lemma start_ssh_agent_failure_changes_nothing_witness :
  let out := _start_ssh_agent failing fresh in
  fst out <> Done tt
  /\ (exit_of failing "ssh-agent -s" = 0%Z -> fst out = AttributeError)
  /\ snd out = {| environ := environ fresh; atexit := atexit fresh;
                  runs := runs fresh ++ ["ssh-agent -s"] |}.
Proof.
  apply (start_ssh_agent_failure_changes_nothing failing fresh).
  - reflexivity.
  - left. vm_compute. discriminate.
Defined.

Lemma start_then_exit_restores_environment_witness :
  environ (at_exit linux started) = environ fresh
  /\ runs (at_exit linux started) = (runs fresh ++ ["ssh-agent -s"; "ssh-agent -k"])%list.
Proof.
  apply (start_then_exit_restores_environment linux fresh started).
  - reflexivity.
  - reflexivity.
  - reflexivity.
  - vm_compute. reflexivity.
Defined.


(** The output of the agent on a Mac, as the comments give it. *)
Example search_mac_output :
  search (agent_output
            "/var/folders/j0/blx8mk5j1hlc0k110xsbrxw00000gn/T//ssh-ZAf5XlQX7tWM/agent.7841"
            "7842")
  = Some ("/var/folders/j0/blx8mk5j1hlc0k110xsbrxw00000gn/T//ssh-ZAf5XlQX7tWM/agent.7841",
          "7842").
Proof. vm_compute. reflexivity. Qed.

End AgentSamples.

(** ** The kill of the agent, and docker_command *)

(** X27. [_kill_ssh_agent] never raises, whatever [ssh-agent -k] exits
    with: it runs that command once, removes the two variables of the
    agent from the environment, present or not, and touches no other
    variable and no registration. *)
Theorem kill_ssh_agent_clears_agent_variables (sh : Agent.Shell) (p : Agent.Proc) :
  let p1 := snd (Agent._kill_ssh_agent sh p) in
  fst (Agent._kill_ssh_agent sh p) = Agent.Done tt
  /\ Agent.runs p1 = (Agent.runs p ++ ["ssh-agent -k"])%list
  /\ Agent.atexit p1 = Agent.atexit p
  /\ Agent.environ p1 !! "SSH_AUTH_SOCK" = None
  /\ Agent.environ p1 !! "SSH_AGENT_PID" = None
  /\ forall k, k <> "SSH_AUTH_SOCK" -> k <> "SSH_AGENT_PID" ->
               Agent.environ p1 !! k = Agent.environ p !! k.
Proof.
  unfold Agent._kill_ssh_agent, Agent.run. cbn.
  repeat split.
  - rewrite lookup_delete_ne by discriminate. apply lookup_delete_eq.
  - apply lookup_delete_eq.
  - intros k H1 H2. now rewrite !lookup_delete_ne by congruence.
Qed.

(** X28. [docker_command] reads its optional arguments through their
    truth value: an absent session and an empty one, an absent list or
    dict and an empty one, give the same command. *)
Theorem docker_command_absent_is_empty cmd image detached_session env volumes flags :
  docker_command cmd image detached_session env volumes flags
  = docker_command cmd image
      (if opt_truthy detached_session then detached_session else None)
      (Some (default [] env)) (Some (default [] volumes)) (Some (default [] flags)).
Proof.
  unfold docker_command.
  destruct detached_session as [session|]; [|reflexivity].
  cbn [opt_truthy]. destruct (negb (String.eqb session EmptyString)) eqn:H.
  - now rewrite H.
  - reflexivity.
Qed.
